(** * 401k Portfolio Data API: a shallow embedding of [app.py]

    The application downloads a table of daily closing prices, falls back to
    a seeded synthetic table when the download raises, slices the table from
    a fixed date, drops one column, drops the rows that still hold a missing
    value, and serves the records as JSON.

    Conventions of the embedding.
    - A Python exception is a value of [exn]; only instances of [Exception]
      are modelled (the two [except Exception] clauses of the source catch
      exactly those).
    - Code that prints, reseeds and draws from NumPy's global generator runs
      in the monad [M]: a function of the [world] returning an outcome and
      the new world.  Unlike a state transformer over a sum, the world
      survives a raised exception, as in Python.
    - 64-bit floats and the generator behind [np.random] are interfaces
      ([Float64], [Rng]); the development is generic in them and gives one
      idealised instance over the reals.  What the fallback needs of their
      magnitudes is the interface [Binary64Laws].
    - A [DataFrame] keeps its rows in index order; the model of label slicing
      is the one pandas applies to a monotonic increasing [DatetimeIndex]. *)

From Stdlib Require Import String Ascii Bool ZArith QArith Qround Reals Qreals.
From Stdlib Require Import Lia Lra Psatz.
From Stdlib Require Import List Sorting.Sorted.
Import ListNotations.

Local Open Scope string_scope.
Local Open Scope Z_scope.

(* ===================================================================== *)
(** ** Python: exceptions, outcomes, ordered dictionaries                *)
(* ===================================================================== *)

Module Py.

(** The exception classes that occur; [OtherError] is any other subclass
    of [Exception], named by its class. *)
Inductive exn_class := KeyError | ValueError | OtherError (cls : string).

(** An exception instance: its class and the text [str(e)] yields. *)
Record exn := mk_exn { exn_type : exn_class; exn_str : string }.

Inductive result (A : Type) := Ok (a : A) | Raise (e : exn).
Arguments Ok {A} a.
Arguments Raise {A} e.

(** [dict]: insertion ordered, one entry per key; assigning to a key that
    is present replaces the value in place. *)
Definition dict (V : Type) := list (string * V).

Fixpoint dict_set {V} (k : string) (v : V) (d : dict V) : dict V :=
  match d with
  | [] => [(k, v)]
  | (k', v') :: t =>
      if String.eqb k k' then (k', v) :: t else (k', v') :: dict_set k v t
  end.

Fixpoint dict_get {V} (k : string) (d : dict V) : option V :=
  match d with
  | [] => None
  | (k', v) :: t => if String.eqb k k' then Some v else dict_get k t
  end.

Definition keys {V} (d : dict V) : list string := map fst d.

(** [dict(items)]: later items win, first position is kept. *)
Definition dict_of_items {V} (items : list (string * V)) : dict V :=
  fold_left (fun d kv => dict_set (fst kv) (snd kv) d) items [].

(** The character [chr(34)] and [repr] of a string that holds a single
    quote (Python then delimits with double quotes). *)
Definition dq : string := String (ascii_of_nat 34) EmptyString.
Definition repr_dq (s : string) : string := dq ++ s ++ dq.

End Py.
Import Py.

(* ===================================================================== *)
(** ** Calendar dates                                                    *)
(* ===================================================================== *)

Module Dates.

(** A date is its day number, day 0 being 1970-01-01. *)
Definition date := Z.

(** Day number of the civil date [y]-[m]-[d] (proleptic Gregorian). *)
Definition ymd (y m d : Z) : date :=
  let y' := if m <=? 2 then y - 1 else y in
  let era := y' / 400 in
  let yoe := y' - era * 400 in
  let mp := (m + 9) mod 12 in
  let doy := (153 * mp + 2) / 5 + d - 1 in
  let doe := yoe * 365 + yoe / 4 - yoe / 100 + doy in
  era * 146097 + doe - 719468.

(** Monday is 0, Sunday is 6. *)
Definition weekday (d : date) : Z := (d + 3) mod 7.

Definition is_business_day (d : date) : bool := weekday d <? 5.

(** The days [start], [start+1], ... , [start+n-1]. *)
Fixpoint days_from (start : date) (n : nat) : list date :=
  match n with
  | O => []
  | S n' => start :: days_from (start + 1) n'
  end.

(** [pd.date_range(start, end, freq="B")]: the business days of the
    closed interval. *)
Definition bdate_range (start stop : date) : list date :=
  filter is_business_day (days_from start (Z.to_nat (stop - start + 1))).

End Dates.
Import Dates.

(* ===================================================================== *)
(** ** Numbers and the pseudo-random generator                           *)
(* ===================================================================== *)

(** What the program needs of IEEE binary64: the two tests pandas and the
    JSON encoder apply, decimal literals, and the three operations of the
    synthetic generator. *)
Class Float64 := {
  num : Type;
  is_nan : num -> bool;
  is_inf : num -> bool;
  flit : Q -> num;
  fadd : num -> num -> num;
  fmul : num -> num -> num;
  fexp : num -> num
}.

(** NumPy's global [RandomState]: seeding, and one standard normal draw. *)
Class Rng (F : Float64) := {
  rng_state : Type;
  seed : Z -> rng_state;
  gauss : rng_state -> num * rng_state
}.

(** Magnitudes.  [within x q] reads: [x] is a number, neither a NaN nor
    an infinity, and [|x| <= q]. *)
Class Bounded (F : Float64) := {
  within : num -> Q -> Prop
}.

(** The unit of relative rounding error allowed (twice that of binary64),
    a positive number below the smallest normal one, and a number below
    the largest finite one. *)
Definition eps : Q := 1 # 4503599627370496.
Definition tiny : Q := 1 # (2 ^ 1000).
Definition big : Q := inject_Z (2 ^ 1000).

(** What IEEE 754 binary64 arithmetic with rounding to nearest guarantees
    about magnitudes, with what is assumed of the exponential of the
    mathematical library ([e < 3], an error far below a factor of 2, no
    overflow up to 700) and of the normal draws of NumPy's legacy
    generator (the polar method on 53-bit uniforms never exceeds 13 in
    magnitude). *)
Class Binary64Laws (F : Float64) (G : Rng F) (B : Bounded F) : Prop := {
  within_finite : forall x q,
    within x q -> is_nan x = false /\ is_inf x = false;
  within_weaken : forall x q q',
    within x q -> (q <= q')%Q -> within x q';
  within_lit : forall q,
    (tiny <= q)%Q -> (q <= big)%Q -> within (flit q) (q * (1 + eps));
  within_add : forall a b qa qb,
    within a qa -> within b qb -> (qa + qb <= big)%Q ->
    within (fadd a b) ((qa + qb) * (1 + eps));
  within_mul : forall a b qa qb,
    within a qa -> within b qb -> (qa * qb <= big)%Q ->
    within (fmul a b) (qa * qb * (1 + eps) + tiny);
  within_exp : forall a qa,
    within a qa -> (qa <= 700)%Q ->
    within (fexp a) (2 * inject_Z (3 ^ Qceiling qa));
  within_gauss : forall st, within (fst (gauss st)) 13
}.

(* ===================================================================== *)
(** ** The world and the monad of effectful code                         *)
(* ===================================================================== *)

Module Eff.
Section Eff.
Context {F : Float64} {G : Rng F}.

Record world := mk_world { rng : rng_state; stdout : list string }.

Definition M (A : Type) : Type := world -> result A * world.

Definition ret {A} (a : A) : M A := fun w => (Ok a, w).

Definition bind {A B} (c : M A) (k : A -> M B) : M B :=
  fun w => match c w with
           | (Ok a, w') => k a w'
           | (Raise e, w') => (Raise e, w')
           end.

Definition lift {A} (r : result A) : M A := fun w => (r, w).

(** [try: body except Exception as e: handler(e)] *)
Definition try_except {A} (body : M A) (handler : exn -> M A) : M A :=
  fun w => match body w with
           | (Ok a, w') => (Ok a, w')
           | (Raise e, w') => handler e w'
           end.

Definition print (line : string) : M unit :=
  fun w => (Ok tt, {| rng := rng w; stdout := stdout w ++ [line] |}).

(** A dict comprehension [{k: f(k) for k in ks}], evaluated left to
    right. *)
Fixpoint dict_comprehension {V} (f : string -> M V) (ks : list string)
    (acc : dict V) : M (dict V) :=
  match ks with
  | [] => ret acc
  | k :: ks' => bind (f k) (fun v => dict_comprehension f ks' (dict_set k v acc))
  end.

End Eff.
End Eff.
Import Eff.

Declare Scope eff_scope.
Delimit Scope eff_scope with eff.
Notation "x <- c ;; k" := (bind c (fun x => k))
  (at level 61, c at next level, right associativity) : eff_scope.
Notation "c ;;; k" := (bind c (fun _ => k))
  (at level 61, right associativity) : eff_scope.

(* ===================================================================== *)
(** ** NumPy                                                             *)
(* ===================================================================== *)

Module Np.
Section Np.
Context {F : Float64} {G : Rng F}.

(** [np.random.seed(s)] *)
Definition random_seed (s : Z) : M unit :=
  fun w => (Ok tt, {| rng := seed s; stdout := stdout w |}).

(** [size] successive standard normal draws. *)
Fixpoint gauss_draws (size : nat) (st : rng_state) : list num * rng_state :=
  match size with
  | O => ([], st)
  | S n => let (z, st1) := gauss st in
           let (zs, st2) := gauss_draws n st1 in
           (z :: zs, st2)
  end.

(** [np.random.normal(loc, scale, size)]: each draw is
    [loc + scale * z]. *)
Definition random_normal (loc scale : num) (size : nat) : M (list num) :=
  fun w => let (zs, st) := gauss_draws size (rng w) in
           (Ok (map (fun z => fadd loc (fmul scale z)) zs),
            {| rng := st; stdout := stdout w |}).

Fixpoint cumsum_from (acc : num) (a : list num) : list num :=
  match a with
  | [] => []
  | x :: t => let s := fadd acc x in s :: cumsum_from s t
  end.

(** [np.cumsum(a)]: the running sums, accumulated left to right. *)
Definition cumsum (a : list num) : list num :=
  match a with
  | [] => []
  | x :: t => x :: cumsum_from x t
  end.

(** [np.exp(a)] and [c * a], elementwise. *)
Definition exp (a : list num) : list num := map fexp a.
Definition scale (c : num) (a : list num) : list num := map (fmul c) a.

End Np.
End Np.

(* ===================================================================== *)
(** ** JSON values and responses                                         *)
(* ===================================================================== *)

Module Json.
Section Json.
Context {F : Float64}.

#[warnings="-register-all"] Inductive json :=
| JStr (s : string)
| JInt (n : Z)
| JNum (x : num)
| JArr (items : list json)
| JObj (members : list (string * json)).

(** [json.dumps(..., allow_nan=False)] accepts a tree when no float in
    it is a NaN or an infinity. *)
Fixpoint compliant (j : json) : bool :=
  match j with
  | JStr _ | JInt _ => true
  | JNum x => negb (is_nan x || is_inf x)
  | JArr items => forallb compliant items
  | JObj members => forallb (fun kv : string * json => compliant (snd kv)) members
  end.

Definition member (k : string) (j : json) : option json :=
  match j with
  | JObj members => dict_get k members
  | _ => None
  end.

Record Response := mk_response { status_code : Z; content : json }.

Definition out_of_range : exn :=
  mk_exn ValueError "Out of range float values are not JSON compliant".

(** [JSONResponse(content, status_code)]: the body is rendered when the
    response is built, so a value the encoder rejects raises there. *)
Definition JSONResponse (status : Z) (c : json) : result Response :=
  if compliant c then Ok (mk_response status c) else Raise out_of_range.

End Json.
End Json.
Import Json.

(* ===================================================================== *)
(** ** pandas                                                            *)
(* ===================================================================== *)

Module Pd.
Section Pd.
Context {F : Float64}.

(** A frame with a [DatetimeIndex]: the column labels, and the rows in
    index order, each with its date and one cell per column.  A missing
    value is a NaN cell. *)
Record DataFrame := mk_frame {
  columns : list string;
  rows : list (date * list num)
}.

Definition index (df : DataFrame) : list date := map fst (rows df).

(** [len(df)] *)
Definition len (df : DataFrame) : nat := length (rows df).

Definition monotonic_increasing (idx : list date) : Prop := Sorted Z.le idx.

Fixpoint add_column (rs : list (date * list num)) (col : list num)
    : list (date * list num) :=
  match rs, col with
  | (d, cells) :: rs', v :: col' => (d, (cells ++ [v])%list) :: add_column rs' col'
  | _, _ => []
  end.

Definition length_mismatch : exn :=
  mk_exn ValueError "Length of values does not match length of index".

(** [pd.DataFrame(data, index=idx)] for a dict of arrays: one column per
    key in insertion order; every array must be as long as the index. *)
Definition DataFrame_of_dict (data : dict (list num)) (idx : list date)
    : result DataFrame :=
  if forallb (fun kc => Nat.eqb (length (snd kc)) (length idx)) data
  then Ok (mk_frame (keys data)
             (fold_left add_column (map snd data) (map (fun d => (d, [])) idx)))
  else Raise length_mismatch.

(** [idx.searchsorted(x, side="left")] on a sorted index: the number of
    leading entries below [x]. *)
Fixpoint searchsorted_left (idx : list date) (x : date) : nat :=
  match idx with
  | [] => O
  | d :: t => if d <? x then S (searchsorted_left t x) else O
  end.

(** [df.loc[start:]] on a monotonic increasing index: the positional
    slice from the left bound of [start].  On an index that is not
    monotonic pandas takes another path (a value mask, or a [KeyError] when
    [start] is not a label), which this definition does not describe: the
    properties that depend on the slice assume an ascending index. *)
Definition loc_from (start : date) (df : DataFrame) : DataFrame :=
  mk_frame (columns df) (skipn (searchsorted_left (index df) start) (rows df)).

Definition mem (c : string) (l : list string) : bool := existsb (String.eqb c) l.

(** [repr] of a list of strings. *)
Definition repr_list (l : list string) : string :=
  "[" ++ String.concat ", " (map (fun s => "'" ++ s ++ "'") l) ++ "]".

Definition not_found_in_axis (missing : list string) : exn :=
  mk_exn KeyError (repr_dq (repr_list missing ++ " not found in axis")).

Definition drop_cells (labels cols : list string) (cells : list num) : list num :=
  map snd (filter (fun kv => negb (mem (fst kv) labels)) (combine cols cells)).

(** [df.drop(columns=labels)]: raises [KeyError] when a label is not a
    column, else removes every column carrying one of the labels. *)
Definition drop_columns (labels : list string) (df : DataFrame)
    : result DataFrame :=
  match filter (fun c => negb (mem c (columns df))) labels with
  | [] => Ok (mk_frame (filter (fun c => negb (mem c labels)) (columns df))
                (map (fun r => (fst r, drop_cells labels (columns df) (snd r)))
                     (rows df)))
  | missing => Raise (not_found_in_axis missing)
  end.

(** [df.dropna()]: keeps the rows without a NaN cell. *)
Definition dropna (df : DataFrame) : DataFrame :=
  mk_frame (columns df)
    (filter (fun r => negb (existsb is_nan (snd r))) (rows df)).

(** [df.to_dict(orient="records")]: per row, [dict(zip(columns, row))]. *)
Definition to_dict_records (df : DataFrame) : list (dict num) :=
  map (fun r => dict_of_items (combine (columns df) (snd r))) (rows df).

(** [frame[k]] on the result of a download, whose columns are grouped by
    price field. *)
Definition getitem (k : string) (d : dict DataFrame) : result DataFrame :=
  match dict_get k d with
  | Some df => Ok df
  | None => Raise (mk_exn KeyError ("'" ++ k ++ "'"))
  end.

End Pd.
End Pd.
Import Pd.

(* ===================================================================== *)
(** ** The application                                                   *)
(* ===================================================================== *)

Module App.

Definition investment_options : list string := [
  "DODGX"; "FLCSX"; "FXAIX"; "VFIAX"; "VFINX"; "TRBCX"; "PRGFX";
  "VTTVX"; "VTTSX"; "VTIVX"; "VFFVX"; "VSVNX"; "TRRKX"; "FFTHX";
  "FTBFX"; "VBTLX"; "VBMFX"; "VIPIX"; "MWTSX"; "PTTRX";
  "PRWCX"; "VWELX"; "FCNTX"; "DODFX";
  "VGTSX"; "VTIAX"; "FSPSX"; "VFWAX"; "TRIGX";
  "VFSVX"; "VFSAX"; "FISMX"; "VINEX";
  "VEMAX"; "FPADX" ].

Definition market_indexes : list string :=
  [ "^VIX"; "^MOVE"; "^GSPC"; "^TNX"; "^IRX"; "TIP" ].

Definition tickers : list string := investment_options ++ market_indexes.

(** The label slice of the source starts at 2022-07-05. *)
Definition cutoff : date := ymd 2022 7 5.

(** The index of the synthetic table. *)
Definition dummy_dates : list date := bdate_range (ymd 2025 1 1) (ymd 2025 9 29).

Section App.
Context {F : Float64} {G : Rng F}.
Local Open Scope eff_scope.

(** [100 * np.exp(np.cumsum(np.random.normal(0.0002, 0.01, n)))] *)
Definition dummy_series (n : nat) : M (list num) :=
  draws <- Np.random_normal (flit (2 # 10000)) (flit (1 # 100)) n ;;
  ret (Np.scale (flit (100 # 1)) (Np.exp (Np.cumsum draws))).

(** The dict comprehension of the fallback, after reseeding. *)
Definition dummy_columns : M (dict (list num)) :=
  Np.random_seed 42 ;;;
  dict_comprehension (fun _ => dummy_series (length dummy_dates)) tickers [].

(** The body of the [except] clause after the diagnostic line. *)
Definition dummy_data : M DataFrame :=
  cols <- dummy_columns ;;
  lift (DataFrame_of_dict cols dummy_dates).

(** Step 1 and 2 of [get_cleaned_data]: the download, whose outcome
    [download] is what [yf.download(...)] returned or raised, then its
    "Close" group; on an exception, the diagnostic line and the synthetic
    table. *)
Definition fetch_data (download : result (dict DataFrame)) : M DataFrame :=
  try_except
    (d <- lift download ;; lift (getitem "Close" d))
    (fun e =>
       print ("Error fetching data: " ++ exn_str e ++ ". Generating dummy data.") ;;;
       dummy_data).

(** Step 3 and 4: [data.loc['2022-07-05':]], then
    [.drop(columns=['VFSVX']).dropna()]. *)
Definition clean (data : DataFrame) : result DataFrame :=
  let most_recent := loc_from cutoff data in
  match drop_columns ["VFSVX"] most_recent with
  | Ok dropped => Ok (dropna dropped)
  | Raise e => Raise e
  end.

Definition get_cleaned_data (download : result (dict DataFrame)) : M DataFrame :=
  data <- fetch_data download ;;
  lift (clean data).

Definition record_json (rec : dict num) : json :=
  JObj (map (fun kv => (fst kv, JNum (snd kv))) rec).

Definition success_content (clean_df : DataFrame) : json :=
  JObj [ ("status", JStr "success");
         ("message", JStr "401k portfolio data fetched and cleaned.");
         ("data", JArr (map record_json (to_dict_records clean_df)));
         ("row_count", JInt (Z.of_nat (len clean_df))) ].

Definition error_content (e : exn) : json :=
  JObj [ ("status", JStr "error");
         ("message", JStr ("An error occurred: " ++ exn_str e)) ].

(** The body of the endpoint's [try]. *)
Definition api_body (download : result (dict DataFrame)) : M Response :=
  clean_df <- get_cleaned_data download ;;
  lift (JSONResponse 200 (success_content clean_df)).

(** [GET /get-401k-data] *)
Definition api_get_401k_data (download : result (dict DataFrame)) : M Response :=
  try_except (api_body download)
    (fun e => lift (JSONResponse 500 (error_content e))).

(** [GET /] *)
Definition read_root : json :=
  JObj [ ("Hello",
          JStr "Welcome to the 401k Data API. Use /get-401k-data to fetch the data.") ].

End App.
End App.
Import App.

(* ===================================================================== *)
(** ** Definitions used to state the properties                          *)
(* ===================================================================== *)

Module Props.
Section Props.
Context {F : Float64} {G : Rng F}.

(** The generator state after [k] further draws. *)
Definition advance (k : nat) (st : rng_state) : rng_state :=
  snd (Np.gauss_draws k st).

(** The series the fallback computes from the standard normal draws
    [zs]: the running sums of [0.0002 + 0.01 * z], exponentiated and
    multiplied by 100. *)
Definition walk (zs : list num) : list num :=
  Np.scale (flit (100 # 1))
    (Np.exp (Np.cumsum
       (map (fun z => fadd (flit (2 # 10000)) (fmul (flit (1 # 100)) z)) zs))).

(** The dict comprehension of the fallback as a function of the generator
    state: each key takes the next [n] draws. *)
Fixpoint columns_from (n : nat) (ks : list string) (st : rng_state)
    (acc : dict (list num)) : dict (list num) * rng_state :=
  match ks with
  | [] => (acc, st)
  | k :: ks' =>
      columns_from n ks' (advance n st)
        (dict_set k (walk (fst (Np.gauss_draws n st))) acc)
  end.

(** The synthetic table: what the fallback builds after reseeding. *)
Definition dummy_frame : result DataFrame :=
  DataFrame_of_dict
    (fst (columns_from (length dummy_dates) tickers (seed 42) []))
    dummy_dates.

(** Every cell of the frame satisfies [P]. *)
Definition all_cells (P : num -> Prop) (df : DataFrame) : Prop :=
  Forall (fun r => Forall P (snd r)) (rows df).

(** No cell of the frame is an infinity. *)
Definition no_inf (df : DataFrame) : Prop :=
  all_cells (fun x => is_inf x = false) df.

(** The "Close" table of a download, when there is one, has its dates in
    ascending order. *)
Definition sorted_download (download : result (dict DataFrame)) : Prop :=
  forall d df, download = Ok d -> getitem "Close" d = Ok df ->
               monotonic_increasing (index df).

(** A JSON value is a row-object whose members all satisfy [P]. *)
Definition row_object (P : string -> json -> Prop) (j : json) : Prop :=
  exists members, j = JObj members /\
                  Forall (fun kv => P (fst kv) (snd kv)) members.

End Props.

(** The labels of a list are pairwise different. *)
Fixpoint distinct (l : list string) : bool :=
  match l with
  | [] => true
  | x :: t => negb (mem x t) && distinct t
  end.

End Props.
Import Props.

(* ===================================================================== *)
(** ** An idealised instance: extended reals, a tabulated generator      *)
(* ===================================================================== *)

Module Ideal.

(** A binary64 value without rounding or overflow: a real, a NaN, or an
    infinity with its sign. *)
Inductive xreal := Fin (r : R) | NaN | Inf (positive : bool).

Definition xnan (x : xreal) : bool :=
  match x with NaN => true | _ => false end.

Definition xinf (x : xreal) : bool :=
  match x with Inf _ => true | _ => false end.

Definition xadd (x y : xreal) : xreal :=
  match x, y with
  | NaN, _ | _, NaN => NaN
  | Fin a, Fin b => Fin (a + b)
  | Inf s, Fin _ | Fin _, Inf s => Inf s
  | Inf s, Inf t => if Bool.eqb s t then Inf s else NaN
  end.

Definition xscale_inf (a : R) (s : bool) : xreal :=
  if Req_dec_T a 0 then NaN
  else if Rlt_dec 0 a then Inf s else Inf (negb s).

Definition xmul (x y : xreal) : xreal :=
  match x, y with
  | NaN, _ | _, NaN => NaN
  | Fin a, Fin b => Fin (a * b)
  | Inf s, Fin a | Fin a, Inf s => xscale_inf a s
  | Inf s, Inf t => Inf (Bool.eqb s t)
  end.

Definition xexp (x : xreal) : xreal :=
  match x with
  | Fin a => Fin (Rtrigo_def.exp a)
  | NaN => NaN
  | Inf true => Inf true
  | Inf false => Fin 0
  end.

#[export] Instance xreal_float : Float64 := {|
  num := xreal;
  is_nan := xnan;
  is_inf := xinf;
  flit := fun q => Fin (Q2R q);
  fadd := xadd;
  fmul := xmul;
  fexp := xexp
|}.

(** The first ten standard normal draws of NumPy's generator after
    [np.random.seed(42)], as decimals. *)
Definition draws_42 : list R := [
  0.4967141530112327; -0.13826430117118466; 0.6476885381006925;
  1.5230298564080254; -0.23415337472333597; -0.23413695694918055;
  1.5792128155073915; 0.7674347291529088; -0.4694743859349521;
  0.5425600435859647 ]%R.

(** A generator that replays [draws_42] cyclically, whatever the seed; its
    state is the number of draws since the last seeding. *)
#[export] Instance replay_rng : Rng xreal_float := {|
  rng_state := nat;
  seed := fun _ => O;
  gauss := fun k => (Fin (nth (k mod 10) draws_42 0%R), S k)
|}.

Definition w0 : world := mk_world (O : @rng_state _ replay_rng) [].

(** A five-day table around the cutoff (2022-07-05 is a Tuesday; the 4th, a
    holiday, has no row) with the column to remove and one missing cell. *)
Definition sample_close : DataFrame := mk_frame ["FXAIX"; "VFSVX"; "^VIX"] [
  (ymd 2022 7 1, [Fin 130; NaN; Fin 26]);
  (ymd 2022 7 5, [Fin 131; NaN; Fin 27]);
  (ymd 2022 7 6, [Fin 132; Fin 20; NaN]);
  (ymd 2022 7 7, [Fin 133; NaN; Fin 26]) ]%R.

Definition sample_download : result (dict DataFrame) :=
  Ok [("Close", sample_close); ("Volume", mk_frame [] [])].

(** The same table read from the 6th, so that the cutoff is not a label. *)
Definition sample_late : DataFrame :=
  mk_frame (columns sample_close) (skipn 2 (rows sample_close)).

(** A table without the column to remove. *)
Definition sample_no_vfsvx : DataFrame := mk_frame ["FXAIX"; "^VIX"] [
  (ymd 2022 7 5, [Fin 131; Fin 27]);
  (ymd 2022 7 6, [Fin 132; Fin 28]) ]%R.

(** A table with an infinite price. *)
Definition sample_inf : DataFrame := mk_frame ["FXAIX"; "VFSVX"] [
  (ymd 2022 7 5, [Inf true; NaN]) ].

Definition connection_error : exn :=
  mk_exn (OtherError "ConnectionError") "Max retries exceeded".

(** What cleaning [sample_close] must give: the row of the 1st is before
    the cutoff, the row of the 6th has a missing cell left once 'VFSVX' is
    gone. *)
Definition sample_clean : DataFrame := mk_frame ["FXAIX"; "^VIX"] [
  (ymd 2022 7 5, [Fin 131; Fin 27]);
  (ymd 2022 7 7, [Fin 133; Fin 26]) ]%R.

Definition sample_response : Response :=
  mk_response 200
    (JObj [ ("status", JStr "success");
            ("message", JStr "401k portfolio data fetched and cleaned.");
            ("data", JArr [ JObj [("FXAIX", JNum (Fin 131)); ("^VIX", JNum (Fin 27))];
                            JObj [("FXAIX", JNum (Fin 133)); ("^VIX", JNum (Fin 26))] ]);
            ("row_count", JInt 2) ])%R.

Definition is_fin (x : xreal) : Prop := exists r, x = Fin r.

#[export] Instance xreal_bounded : Bounded xreal_float := {|
  within := fun x q => exists r, x = Fin r /\ (Rabs r <= Q2R q)%R
|}.

(** A table that ends before the cutoff. *)
Definition sample_early : DataFrame := mk_frame ["FXAIX"; "VFSVX"] [
  (ymd 2022 6 30, [Fin 129; NaN]);
  (ymd 2022 7 1, [Fin 130; NaN]) ]%R.

(** A download without a "Close" group. *)
Definition sample_open_only : dict DataFrame := [("Open", sample_close)].

End Ideal.

(* ===================================================================== *)
(** ** Facts about dictionaries                                          *)
(* ===================================================================== *)

Section DictFacts.
Context {V : Type}.
Implicit Types (d : dict V) (k : string) (v : V).

Lemma dict_set_Forall (P : string * V -> Prop) k v d :
  Forall P d -> P (k, v) -> Forall P (dict_set k v d).
Proof.
  intros Hd Hkv. induction d as [|[k' v'] t IH]; simpl.
  - constructor; [assumption | constructor].
  - inversion Hd as [|? ? Hhd Htl]; subst.
    destruct (String.eqb_spec k k') as [->|Hne].
    + constructor; assumption.
    + constructor; auto.
Qed.

Lemma dict_of_items_Forall (P : string * V -> Prop) (items : list (string * V)) :
  Forall P items -> Forall P (dict_of_items items).
Proof.
  unfold dict_of_items. intros H.
  assert (Hacc : Forall P (@nil (string * V))) by constructor.
  revert Hacc. generalize (@nil (string * V)) as acc.
  induction H as [|[k v] items Hkv _ IH]; intros acc Hacc; simpl.
  - assumption.
  - apply IH. apply dict_set_Forall; assumption.
Qed.

Lemma dict_get_set_same k v d : dict_get k (dict_set k v d) = Some v.
Proof.
  induction d as [|[k' v'] t IH]; simpl.
  - rewrite String.eqb_refl. reflexivity.
  - destruct (String.eqb_spec k k') as [->|Hne]; simpl.
    + rewrite String.eqb_refl. reflexivity.
    + destruct (String.eqb_spec k k'); [contradiction | exact IH].
Qed.

Lemma dict_get_set_other k k' v d :
  k <> k' -> dict_get k' (dict_set k v d) = dict_get k' d.
Proof.
  intros Hne. induction d as [|[k0 v0] t IH]; simpl.
  - destruct (String.eqb_spec k' k); [congruence | reflexivity].
  - destruct (String.eqb_spec k k0) as [->|Hk]; simpl.
    + destruct (String.eqb_spec k' k0); [congruence | reflexivity].
    + destruct (String.eqb_spec k' k0); [reflexivity | exact IH].
Qed.

Lemma keys_dict_set_absent k v d :
  ~ In k (keys d) -> keys (dict_set k v d) = (keys d ++ [k])%list.
Proof.
  unfold keys. induction d as [|[k' v'] t IH]; simpl; intros Hk.
  - reflexivity.
  - destruct (String.eqb_spec k k') as [->|Hne].
    + exfalso. apply Hk. left. reflexivity.
    + simpl. f_equal. apply IH. intros Hin. apply Hk. right. exact Hin.
Qed.

End DictFacts.

(* ===================================================================== *)
(** ** Facts about frames                                                *)
(* ===================================================================== *)

Section FrameFacts.
Context {F : Float64}.
Implicit Types (df : DataFrame) (idx : list date).

(** On a sorted index the left bound splits the rows exactly at the
    first date that is not below the bound. *)
Lemma skipn_searchsorted_filter (start : date) (rs : list (date * list num)) :
  monotonic_increasing (map fst rs) ->
  skipn (searchsorted_left (map fst rs) start) rs
  = filter (fun r => start <=? fst r) rs.
Proof.
  unfold monotonic_increasing. intros Hs.
  apply Sorted_StronglySorted in Hs; [| intros x y z; apply Z.le_trans].
  induction rs as [|[d cells] t IH]; simpl.
  - reflexivity.
  - inversion Hs as [|? ? Ht Hall]; subst.
    destruct (Z.ltb_spec d start) as [Hlt|Hge].
    + destruct (Z.leb_spec start d); [lia |]. simpl. apply IH, Ht.
    + destruct (Z.leb_spec start d); [| lia]. simpl. f_equal.
      symmetry. apply forallb_filter_id. apply forallb_forall.
      intros r Hr. apply Z.leb_le.
      rewrite Forall_forall in Hall.
      specialize (Hall (fst r) (in_map fst _ _ Hr)). simpl in Hall. lia.
Qed.

Lemma loc_from_rows start df :
  monotonic_increasing (index df) ->
  rows (loc_from start df) = filter (fun r => start <=? fst r) (rows df).
Proof. intros H. unfold loc_from, index. simpl. apply skipn_searchsorted_filter, H. Qed.

Lemma mem_In (c : string) (l : list string) : mem c l = true <-> In c l.
Proof.
  unfold mem. rewrite existsb_exists. split.
  - intros [x [Hx Heq]]. apply String.eqb_eq in Heq. subst. exact Hx.
  - intros H. exists c. split; [exact H | apply String.eqb_refl].
Qed.

Lemma mem_false (c : string) (l : list string) : mem c l = false <-> ~ In c l.
Proof.
  rewrite <- mem_In. destruct (mem c l); split; intros H; congruence.
Qed.

(** Dropping one label: it succeeds exactly when the label is a column. *)
Lemma drop_columns_one_ok (c : string) df :
  In c (columns df) ->
  drop_columns [c] df
  = Ok (mk_frame (filter (fun k => negb (mem k [c])) (columns df))
          (map (fun r => (fst r, drop_cells [c] (columns df) (snd r))) (rows df))).
Proof.
  intros H. unfold drop_columns. simpl.
  apply mem_In in H. rewrite H. reflexivity.
Qed.

Lemma drop_columns_one_missing (c : string) df :
  ~ In c (columns df) -> drop_columns [c] df = Raise (not_found_in_axis [c]).
Proof.
  intros H. unfold drop_columns. simpl.
  apply mem_false in H. rewrite H. reflexivity.
Qed.

Lemma drop_columns_one_inv (c : string) df df' :
  drop_columns [c] df = Ok df' ->
  In c (columns df) /\
  df' = mk_frame (filter (fun k => negb (mem k [c])) (columns df))
          (map (fun r => (fst r, drop_cells [c] (columns df) (snd r))) (rows df)).
Proof.
  intros H. destruct (in_dec string_dec c (columns df)) as [Hin|Hnin].
  - rewrite (drop_columns_one_ok c df Hin) in H. inversion H. split; auto.
  - rewrite (drop_columns_one_missing c df Hnin) in H. discriminate.
Qed.

Lemma dropna_rows_no_nan df :
  Forall (fun r => Forall (fun x => is_nan x = false) (snd r)) (rows (dropna df)).
Proof.
  unfold dropna; simpl. apply Forall_forall. intros r Hr.
  apply filter_In in Hr. destruct Hr as [_ Hr].
  apply negb_true_iff in Hr. apply Forall_forall. intros x Hx.
  destruct (is_nan x) eqn:E; [| reflexivity].
  assert (existsb is_nan (snd r) = true) by (apply existsb_exists; eauto).
  congruence.
Qed.

(** A record holds only column labels as keys and only cells of its row
    as values. *)
Lemma record_entries (cols : list string) (cells : list num) :
  Forall (fun kv => In (fst kv) cols /\ In (snd kv) cells)
    (dict_of_items (combine cols cells)).
Proof.
  apply dict_of_items_Forall. apply Forall_forall. intros [k v] H. simpl.
  split; [eapply in_combine_l | eapply in_combine_r]; exact H.
Qed.

(** The records are a function of the column labels and the cells. *)
Lemma to_dict_records_cells df :
  to_dict_records df
  = map (fun cells => dict_of_items (combine (columns df) cells)) (map snd (rows df)).
Proof. unfold to_dict_records. rewrite map_map. reflexivity. Qed.

End FrameFacts.

(* ===================================================================== *)
(** ** Facts about the synthetic generator                               *)
(* ===================================================================== *)

Lemma distinct_NoDup (l : list string) : distinct l = true -> NoDup l.
Proof.
  induction l as [|x t IH]; simpl; intros H.
  - constructor.
  - apply andb_true_iff in H. destruct H as [Hx Ht].
    constructor; [| apply IH, Ht].
    apply negb_true_iff in Hx. apply mem_false in Hx. exact Hx.
Qed.

Lemma tickers_NoDup : NoDup tickers.
Proof. apply distinct_NoDup. vm_compute. reflexivity. Qed.

Lemma VFSVX_requested : In "VFSVX" tickers.
Proof. apply mem_In. vm_compute. reflexivity. Qed.

Lemma dummy_dates_length : length dummy_dates = 194%nat.
Proof. vm_compute. reflexivity. Qed.

Lemma dummy_dates_after_cutoff : Forall (fun d => cutoff <= d) dummy_dates.
Proof.
  apply Forall_forall. intros d Hd.
  assert (H : forallb (fun d => cutoff <=? d) dummy_dates = true)
    by (vm_compute; reflexivity).
  rewrite forallb_forall in H. apply Z.leb_le, H, Hd.
Qed.

Section GeneratorFacts.
Context {F : Float64} {G : Rng F}.

Lemma gauss_draws_length n st : length (fst (Np.gauss_draws n st)) = n.
Proof.
  revert st. induction n as [|n IH]; intros st; simpl.
  - reflexivity.
  - destruct (gauss st) as [z st1]. specialize (IH st1).
    destruct (Np.gauss_draws n st1) as [zs st2]. simpl in *. congruence.
Qed.

Lemma gauss_draws_S_fst n st :
  fst (Np.gauss_draws (S n) st)
  = fst (gauss st) :: fst (Np.gauss_draws n (snd (gauss st))).
Proof.
  simpl. destruct (gauss st) as [z st1]. simpl.
  destruct (Np.gauss_draws n st1) as [zs st2]. reflexivity.
Qed.

Lemma advance_add m n st : advance n (advance m st) = advance (m + n) st.
Proof.
  unfold advance. revert st. induction m as [|m IH]; intros st; simpl.
  - reflexivity.
  - destruct (gauss st) as [z st1]. specialize (IH st1).
    destruct (Np.gauss_draws m st1) as [zs st2].
    destruct (Np.gauss_draws (m + n) st1) as [zs' st3]. simpl in *. exact IH.
Qed.

Lemma cumsum_from_length acc a : length (Np.cumsum_from acc a) = length a.
Proof. revert acc. induction a; intros; simpl; [reflexivity | f_equal; auto]. Qed.

Lemma cumsum_length a : length (Np.cumsum a) = length a.
Proof. destruct a; simpl; [reflexivity | f_equal; apply cumsum_from_length]. Qed.

Lemma walk_length zs : length (walk zs) = length zs.
Proof.
  unfold walk, Np.scale, Np.exp.
  rewrite !length_map, cumsum_length, length_map. reflexivity.
Qed.

(** The first price of a series is [100 * exp (0.0002 + 0.01 * z)] for
    its first draw [z]. *)
Lemma walk_head z zs :
  hd_error (walk (z :: zs))
  = Some (fmul (flit (100 # 1))
            (fexp (fadd (flit (2 # 10000)) (fmul (flit (1 # 100)) z)))).
Proof. reflexivity. Qed.

Lemma dummy_series_run n w :
  dummy_series n w
  = (Ok (walk (fst (Np.gauss_draws n (rng w)))),
     mk_world (advance n (rng w)) (stdout w)).
Proof.
  unfold dummy_series, bind, Np.random_normal, ret, advance, walk.
  destruct (Np.gauss_draws n (rng w)) as [zs st]. reflexivity.
Qed.

Lemma dict_comprehension_run n ks acc w :
  dict_comprehension (fun _ => dummy_series n) ks acc w
  = (Ok (fst (columns_from n ks (rng w) acc)),
     mk_world (snd (columns_from n ks (rng w) acc)) (stdout w)).
Proof.
  revert acc w. induction ks as [|k ks IH]; intros acc w; simpl.
  - destruct w; reflexivity.
  - unfold bind. rewrite dummy_series_run. rewrite IH. reflexivity.
Qed.

Lemma dummy_columns_run w :
  dummy_columns w
  = (Ok (fst (columns_from (length dummy_dates) tickers (seed 42) [])),
     mk_world (snd (columns_from (length dummy_dates) tickers (seed 42) []))
       (stdout w)).
Proof.
  unfold dummy_columns, bind, Np.random_seed.
  rewrite dict_comprehension_run. reflexivity.
Qed.

Lemma dummy_data_run w :
  dummy_data w
  = (dummy_frame,
     mk_world (snd (columns_from (length dummy_dates) tickers (seed 42) []))
       (stdout w)).
Proof.
  unfold dummy_data, bind. rewrite dummy_columns_run.
  cbv beta iota. unfold lift, dummy_frame. reflexivity.
Qed.

(** Keys that the comprehension does not visit keep their entry. *)
Lemma columns_from_get_other n ks st acc t :
  ~ In t ks ->
  dict_get t (fst (columns_from n ks st acc)) = dict_get t acc.
Proof.
  revert st acc. induction ks as [|k ks IH]; intros st acc Hnin; simpl.
  - reflexivity.
  - rewrite IH by (intros H; apply Hnin; right; exact H).
    apply dict_get_set_other. intros ->. apply Hnin. left. reflexivity.
Qed.

(** The [i]-th key holds the walk over the [i]-th block of [n] draws. *)
Lemma columns_from_get n ks st acc i t :
  NoDup ks -> nth_error ks i = Some t ->
  dict_get t (fst (columns_from n ks st acc))
  = Some (walk (fst (Np.gauss_draws n (advance (i * n) st)))).
Proof.
  intros Hnd. revert st acc i.
  induction Hnd as [|k ks Hk Hnd IH]; intros st acc i Hi.
  - destruct i; discriminate.
  - destruct i as [|i]; simpl in Hi |- *.
    + inversion Hi; subst.
      rewrite columns_from_get_other by exact Hk.
      apply dict_get_set_same.
    + rewrite (IH _ _ i Hi). rewrite advance_add. reflexivity.
Qed.

Lemma columns_from_keys n ks st acc :
  NoDup ks -> (forall k, In k ks -> ~ In k (keys acc)) ->
  keys (fst (columns_from n ks st acc)) = (keys acc ++ ks)%list.
Proof.
  intros Hnd. revert st acc.
  induction Hnd as [|k ks Hk Hnd IH]; intros st acc Hfresh; simpl.
  - rewrite app_nil_r. reflexivity.
  - rewrite IH.
    + rewrite keys_dict_set_absent by (apply Hfresh; left; reflexivity).
      rewrite <- app_assoc. reflexivity.
    + intros k' Hk'. rewrite keys_dict_set_absent by (apply Hfresh; left; reflexivity).
      intros Hin. apply in_app_or in Hin. destruct Hin as [Hin|[->|[]]].
      * apply (Hfresh k'); [right; exact Hk' | exact Hin].
      * contradiction.
Qed.

(** Every series the comprehension stores satisfies what every walk
    satisfies. *)
Lemma columns_from_Forall (P : list num -> Prop) n ks st acc :
  (forall st', P (walk (fst (Np.gauss_draws n st')))) ->
  Forall (fun kc => P (snd kc)) acc ->
  Forall (fun kc => P (snd kc)) (fst (columns_from n ks st acc)).
Proof.
  intros HP. revert st acc. induction ks as [|k ks IH]; intros st acc Hacc; simpl.
  - exact Hacc.
  - apply IH. apply dict_set_Forall; [exact Hacc | apply HP].
Qed.

End GeneratorFacts.

(* ===================================================================== *)
(** ** Facts about the construction of the synthetic frame               *)
(* ===================================================================== *)

Section ConstructionFacts.
Context {F : Float64} {G : Rng F}.

Lemma add_column_index (rs : list (date * list num)) col :
  length col = length rs -> map fst (add_column rs col) = map fst rs.
Proof.
  revert col. induction rs as [|[d cells] rs IH]; intros col Hlen; simpl.
  - reflexivity.
  - destruct col as [|v col]; [discriminate |]. simpl. f_equal.
    apply IH. simpl in Hlen. congruence.
Qed.

Lemma add_column_cells (P : num -> Prop) (rs : list (date * list num)) col :
  Forall (fun r => Forall P (snd r)) rs -> Forall P col ->
  Forall (fun r => Forall P (snd r)) (add_column rs col).
Proof.
  intros Hrs. revert col.
  induction Hrs as [|[d cells] rs Hr _ IH]; intros col Hcol; simpl.
  - constructor.
  - destruct Hcol as [|v col Hv Hcol]; constructor.
    + simpl in *. apply Forall_app. split; [exact Hr | constructor; [exact Hv | constructor]].
    + apply IH, Hcol.
Qed.

Lemma fold_add_column_index cols (rs : list (date * list num)) :
  Forall (fun c => length c = length rs) cols ->
  map fst (fold_left add_column cols rs) = map fst rs.
Proof.
  revert rs. induction cols as [|c cols IH]; intros rs H; simpl.
  - reflexivity.
  - inversion H as [|? ? Hc Hcols]; subst.
    pose proof (add_column_index rs c Hc) as Hidx.
    rewrite IH; [exact Hidx |].
    apply Forall_forall. intros c' Hc'.
    rewrite Forall_forall in Hcols. rewrite (Hcols c' Hc').
    rewrite <- (length_map fst rs), <- Hidx, length_map. reflexivity.
Qed.

Lemma fold_add_column_cells (P : num -> Prop) cols (rs : list (date * list num)) :
  Forall (fun r => Forall P (snd r)) rs -> Forall (Forall P) cols ->
  Forall (fun r => Forall P (snd r)) (fold_left add_column cols rs).
Proof.
  intros Hrs Hcols. revert rs Hrs.
  induction Hcols as [|c cols Hc _ IH]; intros rs Hrs; simpl.
  - exact Hrs.
  - apply IH. apply add_column_cells; assumption.
Qed.

(** The constructor succeeds on arrays as long as the index; the frame
    has the keys as columns, the given index, and only cells of the
    arrays. *)
Lemma DataFrame_of_dict_ok (data : dict (list num)) (idx : list date) :
  Forall (fun kc => length (snd kc) = length idx) data ->
  exists rs,
    DataFrame_of_dict data idx = Ok (mk_frame (keys data) rs) /\
    map fst rs = idx /\
    forall P : num -> Prop,
      Forall (fun kc => Forall P (snd kc)) data -> all_cells P (mk_frame (keys data) rs).
Proof.
  intros Hlen. eexists. unfold DataFrame_of_dict.
  assert (Hb : forallb (fun kc : string * list num =>
                          Nat.eqb (length (snd kc)) (length idx)) data = true).
  { apply forallb_forall. intros kc Hkc. apply Nat.eqb_eq.
    rewrite Forall_forall in Hlen. apply Hlen, Hkc. }
  rewrite Hb. split; [reflexivity |]. split.
  - rewrite fold_add_column_index.
    + rewrite map_map. simpl. apply map_id.
    + apply Forall_forall. intros c Hc. apply in_map_iff in Hc.
      destruct Hc as [kc [<- Hkc]]. rewrite length_map.
      rewrite Forall_forall in Hlen. apply Hlen, Hkc.
  - intros P HP. unfold all_cells. simpl. apply fold_add_column_cells.
    + apply Forall_forall. intros r Hr. apply in_map_iff in Hr.
      destruct Hr as [d [<- _]]. constructor.
    + apply Forall_forall. intros c Hc. apply in_map_iff in Hc.
      destruct Hc as [kc [<- Hkc]]. rewrite Forall_forall in HP. apply HP, Hkc.
Qed.

(** The synthetic table exists: one column per requested identifier, in
    order, over the business days of the fixed range; and a property of
    every walk is a property of every cell. *)
Lemma dummy_frame_ok :
  exists rs,
    dummy_frame = Ok (mk_frame tickers rs) /\
    map fst rs = dummy_dates /\
    forall P : num -> Prop,
      (forall st, Forall P (walk (fst (Np.gauss_draws (length dummy_dates) st)))) ->
      all_cells P (mk_frame tickers rs).
Proof.
  unfold dummy_frame.
  set (n := length dummy_dates).
  set (cols := fst (columns_from n tickers (seed 42) [])).
  assert (Hkeys : keys cols = tickers).
  { unfold cols. rewrite columns_from_keys.
    - reflexivity.
    - apply tickers_NoDup.
    - intros k _ []. }
  assert (Hlen : Forall (fun kc => length (snd kc) = length dummy_dates) cols).
  { unfold cols.
    apply (columns_from_Forall (fun s => length s = length dummy_dates)).
    - intros st. rewrite walk_length, gauss_draws_length. reflexivity.
    - constructor. }
  destruct (DataFrame_of_dict_ok cols dummy_dates Hlen) as [rs [Hok [Hidx Hcells]]].
  exists rs. rewrite Hkeys in Hok, Hcells. split; [exact Hok |]. split; [exact Hidx |].
  intros P HP. apply Hcells. unfold cols.
  apply (columns_from_Forall (Forall P)); [exact HP | constructor].
Qed.

End ConstructionFacts.

(* ===================================================================== *)
(** ** Facts about the pipeline                                          *)
(* ===================================================================== *)

Section PipelineFacts.
Context {F : Float64} {G : Rng F}.

(** The world after the fallback ran on an exception whose text is [s]. *)
Lemma fetch_data_fallback download e w :
  download = Raise e \/ (exists d, download = Ok d /\ getitem "Close" d = Raise e) ->
  fetch_data download w
  = (dummy_frame,
     mk_world (snd (columns_from (length dummy_dates) tickers (seed 42) []))
       (stdout w ++ ["Error fetching data: " ++ exn_str e ++ ". Generating dummy data."])).
Proof.
  intros [-> | [d [-> Hget]]];
    unfold fetch_data, try_except, bind, lift, print; cbv beta iota;
    [| rewrite Hget; cbv beta iota ]; rewrite dummy_data_run; reflexivity.
Qed.

Lemma fetch_data_close d df w :
  getitem "Close" d = Ok df -> fetch_data (Ok d) w = (Ok df, w).
Proof.
  intros Hget. unfold fetch_data, try_except, bind, lift. cbv beta iota.
  rewrite Hget. reflexivity.
Qed.

(** The producer yields either the downloaded "Close" table or the
    synthetic one. *)
Lemma fetch_data_cases download w :
  (exists d df, download = Ok d /\ getitem "Close" d = Ok df /\
                fetch_data download w = (Ok df, w)) \/
  (exists e, (download = Raise e \/
              exists d, download = Ok d /\ getitem "Close" d = Raise e) /\
             fst (fetch_data download w) = dummy_frame).
Proof.
  destruct download as [d|e].
  - destruct (getitem "Close" d) as [df|e] eqn:Hget.
    + left. exists d, df. repeat split; auto. apply fetch_data_close, Hget.
    + right. exists e. split; [right; eauto |].
      rewrite (fetch_data_fallback (Ok d) e w); [reflexivity | right; eauto].
  - right. exists e. split; [left; reflexivity |].
    rewrite (fetch_data_fallback (Raise e) e w); [reflexivity | left; reflexivity].
Qed.

Lemma clean_ok (data : DataFrame) :
  In "VFSVX" (columns data) ->
  clean data
  = Ok (dropna (mk_frame
          (filter (fun k => negb (mem k ["VFSVX"])) (columns data))
          (map (fun r => (fst r, drop_cells ["VFSVX"] (columns data) (snd r)))
               (rows (loc_from cutoff data))))).
Proof.
  intros Hin. unfold clean.
  rewrite (drop_columns_one_ok "VFSVX" (loc_from cutoff data)) by exact Hin.
  reflexivity.
Qed.

Lemma clean_missing (data : DataFrame) :
  ~ In "VFSVX" (columns data) -> clean data = Raise (not_found_in_axis ["VFSVX"]).
Proof.
  intros Hnin. unfold clean.
  rewrite (drop_columns_one_missing "VFSVX" (loc_from cutoff data)) by exact Hnin.
  reflexivity.
Qed.

Lemma clean_inv (data clean_df : DataFrame) :
  clean data = Ok clean_df ->
  In "VFSVX" (columns data) /\
  clean_df = dropna (mk_frame
          (filter (fun k => negb (mem k ["VFSVX"])) (columns data))
          (map (fun r => (fst r, drop_cells ["VFSVX"] (columns data) (snd r)))
               (rows (loc_from cutoff data)))).
Proof.
  intros H. destruct (in_dec string_dec "VFSVX" (columns data)) as [Hin|Hnin].
  - rewrite (clean_ok data Hin) in H. inversion H. split; auto.
  - rewrite (clean_missing data Hnin) in H. discriminate.
Qed.

Lemma clean_columns (data clean_df : DataFrame) :
  clean data = Ok clean_df ->
  forall k, In k (columns clean_df) -> In k (columns data) /\ k <> "VFSVX".
Proof.
  intros H k Hk. apply clean_inv in H. destruct H as [_ ->]. simpl in Hk.
  apply filter_In in Hk. destruct Hk as [Hin Hne]. split; [exact Hin |].
  intros ->. simpl in Hne. discriminate.
Qed.

Lemma clean_no_nan (data clean_df : DataFrame) :
  clean data = Ok clean_df -> all_cells (fun x => is_nan x = false) clean_df.
Proof.
  intros H. apply clean_inv in H. destruct H as [_ ->]. apply dropna_rows_no_nan.
Qed.

(** Every row of the cleaned table is a row of the slice. *)
Lemma clean_index (data clean_df : DataFrame) :
  clean data = Ok clean_df ->
  forall d, In d (index clean_df) -> In d (index (loc_from cutoff data)).
Proof.
  intros H d Hd. apply clean_inv in H. destruct H as [_ ->].
  unfold index, dropna in *. simpl in *.
  apply in_map_iff in Hd. destruct Hd as [r [<- Hr]].
  apply filter_In in Hr. destruct Hr as [Hr _].
  apply in_map_iff in Hr. destruct Hr as [r0 [<- Hr0]]. simpl.
  apply in_map_iff. exists r0. split; [reflexivity | exact Hr0].
Qed.

Lemma error_content_compliant e : compliant (error_content e) = true.
Proof. reflexivity. Qed.

(** The endpoint in terms of the outcome of the [try] body. *)
Lemma api_of_body download w :
  api_get_401k_data download w
  = match api_body download w with
    | (Ok resp, w') => (Ok resp, w')
    | (Raise e, w') => (Ok (mk_response 500 (error_content e)), w')
    end.
Proof.
  unfold api_get_401k_data, try_except.
  destruct (api_body download w) as [[resp|e] w']; reflexivity.
Qed.

(** The [try] body in terms of the producer, the cleaner and the
    encoder. *)
Lemma api_body_run download w :
  api_body download w
  = match fetch_data download w with
    | (Ok data, w') =>
        match clean data with
        | Ok clean_df => (JSONResponse 200 (success_content clean_df), w')
        | Raise e => (Raise e, w')
        end
    | (Raise e, w') => (Raise e, w')
    end.
Proof.
  unfold api_body, get_cleaned_data, bind, lift.
  destruct (fetch_data download w) as [[data|e] w']; [| reflexivity].
  destruct (clean data); reflexivity.
Qed.

Lemma get_cleaned_data_run download w :
  get_cleaned_data download w
  = match fetch_data download w with
    | (Ok data, w') => (clean data, w')
    | (Raise e, w') => (Raise e, w')
    end.
Proof.
  unfold get_cleaned_data, bind, lift.
  destruct (fetch_data download w) as [[data|e] w']; reflexivity.
Qed.

(** What a response with status 200 tells. *)
Lemma api_success_inv download w resp :
  fst (api_get_401k_data download w) = Ok resp -> status_code resp = 200 ->
  exists data clean_df,
    fst (fetch_data download w) = Ok data /\
    clean data = Ok clean_df /\
    fst (get_cleaned_data download w) = Ok clean_df /\
    compliant (success_content clean_df) = true /\
    resp = mk_response 200 (success_content clean_df).
Proof.
  rewrite api_of_body, api_body_run, get_cleaned_data_run.
  destruct (fetch_data download w) as [[data|e] w'].
  - destruct (clean data) as [clean_df|e] eqn:Hclean.
    + unfold JSONResponse.
      destruct (compliant (success_content clean_df)) eqn:Hc; simpl.
      * intros Hr _. inversion Hr. exists data, clean_df. auto.
      * intros Hr Hs. inversion Hr; subst. discriminate.
    + simpl. intros Hr Hs. inversion Hr; subst. discriminate.
  - simpl. intros Hr Hs. inversion Hr; subst. discriminate.
Qed.

End PipelineFacts.

(* ===================================================================== *)
(** ** Facts about the cleaned table and its records                     *)
(* ===================================================================== *)

Section RecordFacts.
Context {F : Float64} {G : Rng F}.

Lemma In_skipn {A} (n : nat) (l : list A) (x : A) : In x (skipn n l) -> In x l.
Proof.
  intros H. rewrite <- (firstn_skipn n l). apply in_or_app. right. exact H.
Qed.

Lemma Sorted_skipn (n : nat) (l : list date) :
  Sorted Z.le l -> Sorted Z.le (skipn n l).
Proof.
  revert l. induction n as [|n IH]; intros l Hs; simpl.
  - exact Hs.
  - destruct l as [|x l]; [constructor |].
    apply IH. apply Sorted_inv in Hs. apply Hs.
Qed.

Lemma loc_from_index start (df : DataFrame) :
  index (loc_from start df) = skipn (searchsorted_left (index df) start) (index df).
Proof. unfold index, loc_from. simpl. symmetry. apply skipn_map. Qed.

Lemma loc_from_cells (P : num -> Prop) start (df : DataFrame) :
  all_cells P df -> all_cells P (loc_from start df).
Proof.
  unfold all_cells, loc_from. simpl. intros H.
  apply Forall_forall. intros r Hr. rewrite Forall_forall in H.
  apply H. eapply In_skipn, Hr.
Qed.

Lemma drop_cells_incl labels cols (cells : list num) x :
  In x (drop_cells labels cols cells) -> In x cells.
Proof.
  unfold drop_cells. intros H. apply in_map_iff in H.
  destruct H as [[k v] [<- Hkv]]. apply filter_In in Hkv.
  destruct Hkv as [Hkv _]. eapply in_combine_r, Hkv.
Qed.

(** Cleaning only removes: a property of every cell of the table is a
    property of every cell of the cleaned table. *)
Lemma clean_cells (P : num -> Prop) (data clean_df : DataFrame) :
  clean data = Ok clean_df -> all_cells P data -> all_cells P clean_df.
Proof.
  intros H HP. apply clean_inv in H. destruct H as [_ ->].
  apply (loc_from_cells P cutoff) in HP.
  unfold all_cells, dropna in *. simpl.
  apply Forall_forall. intros r Hr. apply filter_In in Hr. destruct Hr as [Hr _].
  apply in_map_iff in Hr. destruct Hr as [r0 [<- Hr0]]. simpl.
  rewrite Forall_forall in HP. specialize (HP r0 Hr0).
  apply Forall_forall. intros x Hx. rewrite Forall_forall in HP.
  apply HP. eapply drop_cells_incl, Hx.
Qed.

(** Each record of a frame pairs column labels with cells of one row. *)
Lemma records_entries (P : num -> Prop) (df : DataFrame) :
  all_cells P df ->
  Forall (Forall (fun kv => In (fst kv) (columns df) /\ P (snd kv)))
    (to_dict_records df).
Proof.
  unfold all_cells, to_dict_records. intros H.
  apply Forall_forall. intros rec Hrec. apply in_map_iff in Hrec.
  destruct Hrec as [r [<- Hr]]. rewrite Forall_forall in H. specialize (H r Hr).
  eapply Forall_impl; [| apply record_entries].
  intros [k v] [Hk Hv]. simpl in *. split; [exact Hk |].
  rewrite Forall_forall in H. apply H, Hv.
Qed.

Lemma record_json_row_object (Q : string -> num -> Prop) (rec : dict num) :
  Forall (fun kv => Q (fst kv) (snd kv)) rec ->
  row_object (fun k v => exists x, v = JNum x /\ Q k x) (record_json rec).
Proof.
  intros H. exists (map (fun kv => (fst kv, JNum (snd kv))) rec).
  split; [reflexivity |]. apply Forall_forall. intros kv Hkv.
  apply in_map_iff in Hkv. destruct Hkv as [[k x] [<- Hkx]]. simpl.
  exists x. split; [reflexivity |]. rewrite Forall_forall in H. apply (H (k, x) Hkx).
Qed.

Lemma success_content_data (clean_df : DataFrame) :
  member "data" (success_content clean_df)
  = Some (JArr (map record_json (to_dict_records clean_df))).
Proof. reflexivity. Qed.

Lemma success_content_row_count (clean_df : DataFrame) :
  member "row_count" (success_content clean_df)
  = Some (JInt (Z.of_nat (len clean_df))).
Proof. reflexivity. Qed.

(** The encoder accepts the success envelope of a table without NaN and
    without infinity. *)
Lemma success_content_compliant (clean_df : DataFrame) :
  all_cells (fun x => is_nan x = false) clean_df -> no_inf clean_df ->
  compliant (success_content clean_df) = true.
Proof.
  intros Hnan Hinf.
  assert (Hboth : all_cells (fun x => is_nan x = false /\ is_inf x = false) clean_df).
  { unfold no_inf, all_cells in *. apply Forall_forall. intros r Hr.
    rewrite Forall_forall in Hnan, Hinf. specialize (Hnan r Hr). specialize (Hinf r Hr).
    apply Forall_forall. intros x Hx. rewrite Forall_forall in Hnan, Hinf. auto. }
  apply records_entries in Hboth.
  unfold success_content. simpl. rewrite andb_true_r.
  apply forallb_forall. intros j Hj. apply in_map_iff in Hj.
  destruct Hj as [rec [<- Hrec]]. rewrite Forall_forall in Hboth.
  specialize (Hboth rec Hrec). simpl.
  apply forallb_forall. intros kv Hkv. apply in_map_iff in Hkv.
  destruct Hkv as [[k x] [<- Hkx]]. simpl.
  rewrite Forall_forall in Hboth. destruct (Hboth (k, x) Hkx) as [_ [Hn Hi]].
  simpl in Hn, Hi. rewrite Hn, Hi. reflexivity.
Qed.

(** The records of a cleaned table: keys are columns of the input other
    than the removed one, values are not NaN. *)
Lemma cleaned_records (data clean_df : DataFrame) :
  clean data = Ok clean_df ->
  Forall (Forall (fun kv => (In (fst kv) (columns data) /\ fst kv <> "VFSVX")
                            /\ is_nan (snd kv) = false))
    (to_dict_records clean_df).
Proof.
  intros H. pose proof (records_entries _ _ (clean_no_nan _ _ H)) as Hrec.
  eapply Forall_impl; [| exact Hrec]. intros rec Hr.
  eapply Forall_impl; [| exact Hr]. intros kv [Hk Hv]. split; [| exact Hv].
  apply (clean_columns _ _ H), Hk.
Qed.

End RecordFacts.

(* ===================================================================== *)
(** ** Properties of the endpoint and of the cleaner                     *)
(* ===================================================================== *)

Section Properties.
Context {F : Float64} {G : Rng F}.

(** C1.  In every response of [GET /get-401k-data] with status 200, the
    member [data] is an array of row-objects none of which has the key
    'VFSVX' and all of whose values are numbers other than NaN. *)
Theorem success_rows_complete_without_VFSVX download w resp :
  fst (api_get_401k_data download w) = Ok resp ->
  status_code resp = 200 ->
  exists recs,
    member "data" (content resp) = Some (JArr recs) /\
    Forall (row_object (fun k v =>
              exists x, v = JNum x /\ k <> "VFSVX" /\ is_nan x = false)) recs.
Proof.
  intros Hresp Hstatus.
  destruct (api_success_inv _ _ _ Hresp Hstatus)
    as (data & clean_df & _ & Hclean & _ & _ & ->).
  exists (map record_json (to_dict_records clean_df)).
  split; [apply success_content_data |].
  apply Forall_forall. intros j Hj. apply in_map_iff in Hj.
  destruct Hj as [rec [<- Hrec]].
  apply (record_json_row_object (fun k x => k <> "VFSVX" /\ is_nan x = false)).
  pose proof (cleaned_records _ _ Hclean) as Hall.
  rewrite Forall_forall in Hall. specialize (Hall rec Hrec).
  eapply Forall_impl; [| exact Hall]. intros kv [[_ Hk] Hv]. auto.
Qed.

(** C9.  In every response with status 200, [row_count] is the number of
    elements of [data]. *)
Theorem row_count_is_length_of_data download w resp :
  fst (api_get_401k_data download w) = Ok resp ->
  status_code resp = 200 ->
  exists recs,
    member "data" (content resp) = Some (JArr recs) /\
    member "row_count" (content resp) = Some (JInt (Z.of_nat (length recs))).
Proof.
  intros Hresp Hstatus.
  destruct (api_success_inv _ _ _ Hresp Hstatus)
    as (data & clean_df & _ & _ & _ & _ & ->).
  exists (map record_json (to_dict_records clean_df)).
  split; [apply success_content_data |].
  cbn [content]. rewrite success_content_row_count. unfold to_dict_records, len.
  rewrite !length_map. reflexivity.
Qed.


(** C6.  When 'VFSVX' is not a column of the sliced table, the cleaning
    step raises the [KeyError] of [drop], and [get_cleaned_data] lets it
    escape. *)
Theorem missing_column_raises_KeyError (data : DataFrame) :
  ~ In "VFSVX" (columns (loc_from cutoff data)) ->
  clean data = Raise (not_found_in_axis ["VFSVX"]) /\
  exn_type (not_found_in_axis ["VFSVX"]) = KeyError /\
  forall d w, getitem "Close" d = Ok data ->
    get_cleaned_data (Ok d) w = (Raise (not_found_in_axis ["VFSVX"]), w).
Proof.
  intros Hnin. simpl in Hnin.
  pose proof (clean_missing data Hnin) as Hclean.
  split; [exact Hclean |]. split; [reflexivity |].
  intros d w Hget. rewrite get_cleaned_data_run.
  rewrite (fetch_data_close d data w Hget). rewrite Hclean. reflexivity.
Qed.

(** C7.  The endpoint always returns a response.  When the body of its
    [try] raises [e], the response has status 500 and its content is
    exactly the object with [status] "error" and a [message] string; it has
    no [data] member. *)
Theorem endpoint_converts_errors download w :
  (exists resp, fst (api_get_401k_data download w) = Ok resp) /\
  forall e, fst (api_body download w) = Raise e ->
    fst (api_get_401k_data download w)
    = Ok (mk_response 500
            (JObj [ ("status", JStr "error");
                    ("message", JStr ("An error occurred: " ++ exn_str e)) ])) /\
    member "data" (error_content e) = None /\
    member "row_count" (error_content e) = None.
Proof.
  rewrite api_of_body.
  destruct (api_body download w) as [[resp|e0] w'] eqn:Hbody; simpl.
  - split; [eauto |]. intros e He. discriminate.
  - split; [eauto |]. intros e He. inversion He; subst.
    repeat split; reflexivity.
Qed.

(** C8.  The fallback is deterministic: whatever the generator state and
    the output so far, it builds the same table and leaves the generator
    in the same state; so do two runs of the producer on raised
    downloads. *)
Theorem fallback_is_deterministic (w1 w2 : world) :
  fst (dummy_data w1) = fst (dummy_data w2) /\
  rng (snd (dummy_data w1)) = rng (snd (dummy_data w2)) /\
  forall e1 e2,
    fst (fetch_data (Raise e1) w1) = fst (fetch_data (Raise e2) w2).
Proof.
  rewrite !dummy_data_run. cbn [fst snd rng].
  split; [reflexivity |]. split; [reflexivity |].
  intros e1 e2.
  rewrite (fetch_data_fallback (Raise e1) e1 w1) by (left; reflexivity).
  rewrite (fetch_data_fallback (Raise e2) e2 w2) by (left; reflexivity).
  cbn [fst]. reflexivity.
Qed.

(** C4.  When the downloaded table, if any, has its dates in ascending
    order, the elements of [data] in a response with status 200 are, in
    order, the records of the rows of the cleaned table, and every date of
    that table is on or after 2022-07-05. *)
Theorem success_rows_dated_from_cutoff download w resp :
  sorted_download download ->
  fst (api_get_401k_data download w) = Ok resp ->
  status_code resp = 200 ->
  exists clean_df,
    fst (get_cleaned_data download w) = Ok clean_df /\
    member "data" (content resp)
    = Some (JArr (map record_json (to_dict_records clean_df))) /\
    length (to_dict_records clean_df) = length (index clean_df) /\
    Forall (fun d => cutoff <= d) (index clean_df).
Proof.
  intros Hsorted Hresp Hstatus.
  destruct (api_success_inv _ _ _ Hresp Hstatus)
    as (data & clean_df & Hfetch & Hclean & Hget & _ & ->).
  exists clean_df. split; [exact Hget |]. split; [apply success_content_data |].
  split; [unfold to_dict_records, index; rewrite !length_map; reflexivity |].
  apply Forall_forall. intros d Hd.
  apply (clean_index _ _ Hclean) in Hd.
  destruct (fetch_data_cases download w)
    as [(dl & df & Hdl & Hclose & Hrun) | (e & _ & Hrun)].
  - rewrite Hrun in Hfetch. cbn [fst] in Hfetch. inversion Hfetch; subst df.
    pose proof (Hsorted dl data Hdl Hclose) as Hs.
    unfold index in Hd. rewrite (loc_from_rows cutoff data Hs) in Hd.
    apply in_map_iff in Hd. destruct Hd as [r [<- Hr]].
    apply filter_In in Hr. apply Z.leb_le, Hr.
  - rewrite Hrun in Hfetch.
    destruct dummy_frame_ok as (rs & Hok & Hidx & _).
    rewrite Hok in Hfetch. inversion Hfetch; subst data.
    rewrite loc_from_index in Hd. apply In_skipn in Hd.
    unfold index in Hd. cbn [rows] in Hd. rewrite Hidx in Hd.
    pose proof dummy_dates_after_cutoff as Hall.
    rewrite Forall_forall in Hall. apply Hall, Hd.
Qed.

(** C10.  In a response with status 200, every element of [data] is a
    row-object whose keys are column labels of the produced table (the
    requested identifiers when the download raised) and whose values are
    numbers; the array is the same for any table with the same columns
    and cells, whatever its dates. *)
Theorem records_carry_no_date download w resp :
  fst (api_get_401k_data download w) = Ok resp ->
  status_code resp = 200 ->
  exists data clean_df recs,
    fst (fetch_data download w) = Ok data /\
    fst (get_cleaned_data download w) = Ok clean_df /\
    member "data" (content resp) = Some (JArr recs) /\
    Forall (row_object (fun k v =>
              exists x, v = JNum x /\ In k (columns data))) recs /\
    (forall e, download = Raise e ->
       Forall (row_object (fun k v => exists x, v = JNum x /\ In k tickers)) recs) /\
    (forall other : DataFrame,
       columns other = columns clean_df ->
       map snd (rows other) = map snd (rows clean_df) ->
       recs = map record_json (to_dict_records other)).
Proof.
  intros Hresp Hstatus.
  destruct (api_success_inv _ _ _ Hresp Hstatus)
    as (data & clean_df & Hfetch & Hclean & Hget & _ & ->).
  exists data, clean_df, (map record_json (to_dict_records clean_df)).
  split; [exact Hfetch |]. split; [exact Hget |].
  split; [apply success_content_data |].
  assert (Hkeys : Forall (row_object (fun k v =>
              exists x, v = JNum x /\ In k (columns data)))
            (map record_json (to_dict_records clean_df))).
  { apply Forall_forall. intros j Hj. apply in_map_iff in Hj.
    destruct Hj as [rec [<- Hrec]].
    apply (record_json_row_object (fun k _ => In k (columns data))).
    pose proof (cleaned_records _ _ Hclean) as Hall.
    rewrite Forall_forall in Hall. specialize (Hall rec Hrec).
    eapply Forall_impl; [| exact Hall]. intros kv [[Hk _] _]. exact Hk. }
  split; [exact Hkeys |]. split.
  - intros e He.
    assert (Hcols : columns data = tickers).
    { destruct (fetch_data_cases download w)
        as [(dl & df & Hdl & _) | (e' & _ & Hrun)]; [congruence |].
      rewrite Hrun in Hfetch.
      destruct dummy_frame_ok as (rs & Hok & _ & _).
      rewrite Hok in Hfetch. inversion Hfetch. reflexivity. }
    rewrite Hcols in Hkeys. exact Hkeys.
  - intros other Hcols Hcells.
    rewrite (to_dict_records_cells other), (to_dict_records_cells clean_df).
    rewrite Hcols, Hcells. reflexivity.
Qed.

(** C3 (amended).  For the [i]-th requested identifier the fallback
    stores the series [100 * exp (cumsum draws)], where the draws are
    [0.0002 + 0.01 * z] for the [i]-th block of standard normal draws after
    seeding with 42.  Its first element is
    [100 * exp (0.0002 + 0.01 * z)] for the first [z] of the block: 100 is
    the base of the walk, not its first element. *)
Theorem synthetic_series_is_exponential_walk w i t :
  nth_error tickers i = Some t ->
  exists cols w' z zs,
    dummy_columns w = (Ok cols, w') /\
    fst (Np.gauss_draws (length dummy_dates)
           (advance (i * length dummy_dates) (seed 42))) = z :: zs /\
    dict_get t cols
    = Some (Np.scale (flit (100 # 1))
              (Np.exp (Np.cumsum
                 (map (fun z => fadd (flit (2 # 10000)) (fmul (flit (1 # 100)) z))
                      (z :: zs))))) /\
    (exists series, dict_get t cols = Some series /\
       hd_error series
       = Some (fmul (flit (100 # 1))
                 (fexp (fadd (flit (2 # 10000)) (fmul (flit (1 # 100)) z))))).
Proof.
  intros Hi. rewrite dummy_columns_run.
  pose proof (columns_from_get (length dummy_dates) tickers (seed 42) [] i t
                tickers_NoDup Hi) as Hget.
  pose proof (gauss_draws_length (length dummy_dates)
                (advance (i * length dummy_dates) (seed 42))) as Hlen.
  destruct (fst (Np.gauss_draws (length dummy_dates)
                   (advance (i * length dummy_dates) (seed 42)))) as [|z zs].
  - rewrite dummy_dates_length in Hlen. discriminate.
  - eexists. eexists. exists z, zs. split; [reflexivity |]. split; [reflexivity |].
    split; [exact Hget |]. eexists. split; [exact Hget |]. apply walk_head.
Qed.

End Properties.

(* ===================================================================== *)
(** ** Concrete runs on the idealised instance                           *)
(* ===================================================================== *)

Import Ideal.

Lemma sample_run : fst (api_get_401k_data sample_download w0) = Ok sample_response.
Proof. vm_compute. reflexivity. Qed.

Lemma sample_cleaned : fst (get_cleaned_data sample_download w0) = Ok sample_clean.
Proof. vm_compute. reflexivity. Qed.

(** An infinite price survives the cleaning and is refused by the
    encoder: the response is the error envelope. *)
Example sample_inf_run :
  fst (api_get_401k_data (Ok [("Close", sample_inf)]) w0)
  = Ok (mk_response 500
          (JObj [ ("status", JStr "error");
                  ("message",
                   JStr "An error occurred: Out of range float values are not JSON compliant") ])).
Proof. vm_compute. reflexivity. Qed.

Lemma sample_close_sorted : monotonic_increasing (index sample_close).
Proof.
  unfold monotonic_increasing, index. simpl.
  repeat constructor; vm_compute; discriminate.
Qed.

Lemma sample_download_sorted : sorted_download sample_download.
Proof.
  intros d df Hd Hget. inversion Hd; subst d.
  vm_compute in Hget. inversion Hget; subst df. apply sample_close_sorted.
Qed.

Lemma sample_late_sorted : monotonic_increasing (index sample_late).
Proof.
  unfold monotonic_increasing, index. simpl.
  repeat constructor; vm_compute; discriminate.
Qed.

Lemma Forall_map_fin (f : xreal -> xreal) (l : list xreal) :
  (forall x, is_fin x -> is_fin (f x)) ->
  Forall is_fin l -> Forall is_fin (map f l).
Proof.
  intros Hf Hl. induction Hl as [|x l Hx _ IH]; simpl; constructor; auto.
Qed.

Lemma replay_draws_fin n (st : nat) :
  Forall is_fin (fst (Np.gauss_draws n (st : @rng_state _ replay_rng))).
Proof.
  revert st. induction n as [|n IH]; intros st.
  - constructor.
  - rewrite gauss_draws_S_fst. constructor; [| apply IH].
    simpl. eexists. reflexivity.
Qed.

Lemma cumsum_from_fin acc a :
  is_fin acc -> Forall is_fin a -> Forall is_fin (Np.cumsum_from acc a).
Proof.
  intros Hacc Ha. revert acc Hacc.
  induction Ha as [|x a Hx _ IH]; intros acc Hacc; simpl.
  - constructor.
  - destruct Hacc as [r ->]. destruct Hx as [s ->]. simpl.
    constructor; [eexists; reflexivity | apply IH; eexists; reflexivity].
Qed.

Lemma walk_fin zs : Forall is_fin zs -> Forall is_fin (walk zs).
Proof.
  intros Hzs. unfold walk, Np.scale, Np.exp.
  apply Forall_map_fin; [intros x [r ->]; simpl; eexists; reflexivity |].
  apply Forall_map_fin; [intros x [r ->]; simpl; eexists; reflexivity |].
  assert (Hd : Forall is_fin
            (map (fun z => fadd (flit (2 # 10000)) (fmul (flit (1 # 100)) z)) zs))
    by (apply Forall_map_fin; [intros x [r ->]; simpl; eexists; reflexivity | exact Hzs]).
  destruct Hd as [|d ds Hd Hds]; simpl; [constructor |].
  constructor; [exact Hd | apply cumsum_from_fin; assumption].
Qed.

(** On the idealised instance no synthetic price is an infinity. *)
Lemma ideal_dummy_no_inf (data : DataFrame) : dummy_frame = Ok data -> no_inf data.
Proof.
  intros Hd. destruct dummy_frame_ok as (rs & Hok & _ & Hcells).
  rewrite Hok in Hd. assert (Hdata : data = mk_frame tickers rs) by congruence.
  subst data. specialize (Hcells is_fin (fun st => walk_fin _ (replay_draws_fin _ st))).
  unfold no_inf, all_cells in *.
  eapply Forall_impl; [| exact Hcells]. intros r Hr.
  eapply Forall_impl; [| exact Hr]. intros x [s ->]. reflexivity.
Qed.

(* --------------------------------------------------------------------- *)
(** *** Witnesses                                                        *)
(* --------------------------------------------------------------------- *)

Lemma success_rows_complete_without_VFSVX_witness :
  fst (api_get_401k_data sample_download w0) = Ok sample_response /\
  status_code sample_response = 200 /\
  exists recs,
    member "data" (content sample_response) = Some (JArr recs) /\
    Forall (row_object (fun k v =>
              exists x, v = JNum x /\ k <> "VFSVX" /\ is_nan x = false)) recs.
Proof.
  split; [vm_compute; reflexivity |]. split; [reflexivity |].
  apply (success_rows_complete_without_VFSVX sample_download w0 sample_response);
    [vm_compute; reflexivity | reflexivity].
Defined.

Lemma row_count_is_length_of_data_witness :
  fst (api_get_401k_data sample_download w0) = Ok sample_response /\
  status_code sample_response = 200 /\
  exists recs,
    member "data" (content sample_response) = Some (JArr recs) /\
    member "row_count" (content sample_response)
    = Some (JInt (Z.of_nat (length recs))).
Proof.
  split; [vm_compute; reflexivity |]. split; [reflexivity |].
  apply (row_count_is_length_of_data sample_download w0 sample_response);
    [vm_compute; reflexivity | reflexivity].
Defined.

Lemma success_rows_dated_from_cutoff_witness :
  sorted_download sample_download /\
  exists clean_df,
    fst (get_cleaned_data sample_download w0) = Ok clean_df /\
    Forall (fun d => cutoff <= d) (index clean_df).
Proof.
  split; [exact sample_download_sorted |].
  destruct (success_rows_dated_from_cutoff sample_download w0 sample_response)
    as (clean_df & Hget & _ & _ & Hall);
    [exact sample_download_sorted | vm_compute; reflexivity | reflexivity |].
  exists clean_df. split; assumption.
Defined.


Lemma missing_column_raises_KeyError_witness :
  ~ In "VFSVX" (columns (loc_from cutoff sample_no_vfsvx)) /\
  clean sample_no_vfsvx = Raise (not_found_in_axis ["VFSVX"]).
Proof.
  assert (H : ~ In "VFSVX" (columns (loc_from cutoff sample_no_vfsvx)))
    by (simpl; intuition discriminate).
  split; [exact H |].
  exact (proj1 (missing_column_raises_KeyError sample_no_vfsvx H)).
Defined.

Lemma endpoint_converts_errors_witness :
  fst (api_body (Ok [("Close", sample_no_vfsvx)]) w0)
  = Raise (not_found_in_axis ["VFSVX"]) /\
  fst (api_get_401k_data (Ok [("Close", sample_no_vfsvx)]) w0)
  = Ok (mk_response 500
          (JObj [ ("status", JStr "error");
                  ("message",
                   JStr ("An error occurred: "
                         ++ exn_str (not_found_in_axis ["VFSVX"]))) ])).
Proof.
  split; [vm_compute; reflexivity |].
  apply (proj2 (endpoint_converts_errors (Ok [("Close", sample_no_vfsvx)]) w0)
           (not_found_in_axis ["VFSVX"])).
  vm_compute; reflexivity.
Defined.

Lemma records_carry_no_date_witness :
  fst (api_get_401k_data sample_download w0) = Ok sample_response /\
  status_code sample_response = 200 /\
  exists recs,
    member "data" (content sample_response) = Some (JArr recs) /\
    Forall (row_object (fun k v =>
              exists x, v = JNum x /\ In k (columns sample_close))) recs.
Proof.
  split; [vm_compute; reflexivity |]. split; [reflexivity |].
  destruct (records_carry_no_date sample_download w0 sample_response)
    as (data & clean_df & recs & Hfetch & _ & Hmem & Hkeys & _);
    [vm_compute; reflexivity | reflexivity |].
  assert (Hdata : data = sample_close).
  { assert (Hf : fst (fetch_data sample_download w0) = Ok sample_close)
      by (vm_compute; reflexivity).
    congruence. }
  subst data. exists recs. split; assumption.
Defined.

Lemma synthetic_series_is_exponential_walk_witness :
  nth_error tickers 0 = Some "DODGX" /\
  exists cols w' series,
    dummy_columns w0 = (Ok cols, w') /\ dict_get "DODGX" cols = Some series.
Proof.
  split; [reflexivity |].
  destruct (synthetic_series_is_exponential_walk w0 0%nat "DODGX" eq_refl)
    as (cols & w' & z & zs & Hrun & _ & Hget & _).
  exists cols, w'. eexists. split; [exact Hrun | exact Hget].
Defined.

(* --------------------------------------------------------------------- *)
(** *** The first synthetic price                                        *)
(* --------------------------------------------------------------------- *)

(** C3 as stated fails: with the first standard normal draw that follows
    [seed(42)], the series of "DODGX" starts at
    [100 * exp (0.0002 + 0.01 * 0.4967...)], which is above 100. *)
Lemma first_synthetic_price_is_not_100 :
  ~ (forall t, In t tickers ->
     forall cols w', dummy_columns w0 = (Ok cols, w') ->
     exists series, dict_get t cols = Some series /\
                    hd_error series = Some (flit (100 # 1))).
Proof.
  intros H.
  assert (Hin : In "DODGX" tickers) by (left; reflexivity).
  pose proof (dummy_columns_run w0) as Hrun.
  apply (H "DODGX" Hin) in Hrun. destruct Hrun as (series & Hget & Hhd).
  pose proof (columns_from_get (length dummy_dates) tickers (seed 42) [] 0 "DODGX"
                tickers_NoDup eq_refl) as Hc.
  rewrite Hc in Hget. clear Hc.
  assert (Hs : series = walk (fst (Np.gauss_draws (length dummy_dates)
                                (advance (0 * length dummy_dates) (seed 42)))))
    by congruence.
  clear Hget. rewrite Hs in Hhd. clear Hs.
  rewrite dummy_dates_length in Hhd.
  change (advance (0 * 194) (seed 42)) with (seed 42) in Hhd.
  rewrite gauss_draws_S_fst, walk_head in Hhd.
  assert (Hp := f_equal (fun o => match o with Some x => x | None => NaN end) Hhd).
  cbv beta iota in Hp. clear Hhd.
  unfold Q2R in Hp. simpl in Hp.
  assert (Hr := f_equal (fun x => match x with Fin r => r | _ => 0%R end) Hp).
  cbv beta iota in Hr. clear Hp.
  match type of Hr with (_ * Rtrigo_def.exp ?a)%R = _ => set (x := a) in * end.
  assert (H100 : Q2R (100 # 1) = 100%R) by (unfold Q2R; simpl; lra).
  rewrite H100 in Hr.
  assert (Hx : (0 < x)%R) by (unfold x, Q2R; simpl; lra).
  pose proof (exp_ineq1 x) as Hexp.
  assert (Hne : x <> 0%R) by lra. specialize (Hexp Hne).
  lra.
Qed.

(* ===================================================================== *)
(** ** Further properties: the producer and the world                    *)
(* ===================================================================== *)

Section ProducerProperties.
Context {F : Float64} {G : Rng F}.

Lemma columns_from_state n ks st acc :
  snd (columns_from n ks st acc) = advance (length ks * n) st.
Proof.
  revert st acc. induction ks as [|k ks IH]; intros st acc; simpl.
  - reflexivity.
  - rewrite IH, advance_add. reflexivity.
Qed.

(** The endpoint changes the world only through the producer. *)
Lemma api_world download w :
  snd (api_get_401k_data download w) = snd (fetch_data download w).
Proof.
  rewrite api_of_body, api_body_run.
  destruct (fetch_data download w) as [[data|e] w']; [| reflexivity].
  destruct (clean data) as [clean_df|e]; [| reflexivity].
  destruct (JSONResponse 200 (success_content clean_df)); reflexivity.
Qed.

(** X1.  A download that returns without a "Close" group is handled like
    one that raises: the [KeyError] of the lookup is caught, the
    diagnostic line names the key, and the producer returns the synthetic
    table. *)
Theorem download_without_close_falls_back d w :
  dict_get "Close" d = None ->
  (forall e, fst (fetch_data (Ok d) w) = fst (fetch_data (Raise e) w)) /\
  (exists data, fst (fetch_data (Ok d) w) = Ok data /\ columns data = tickers) /\
  stdout (snd (fetch_data (Ok d) w))
  = (stdout w ++ ["Error fetching data: 'Close'. Generating dummy data."])%list.
Proof.
  intros Hnone.
  assert (Hget : getitem "Close" d = Raise (mk_exn KeyError "'Close'"))
    by (unfold getitem; rewrite Hnone; reflexivity).
  pose proof (fetch_data_fallback (Ok d) _ w (or_intror (ex_intro _ d (conj eq_refl Hget))))
    as Hrun.
  rewrite Hrun. cbn [fst snd stdout]. split; [| split].
  - intros e. rewrite (fetch_data_fallback (Raise e) e w (or_introl eq_refl)).
    cbn [fst]. reflexivity.
  - destruct dummy_frame_ok as (rs & Hok & _ & _).
    exists (mk_frame tickers rs). split; [exact Hok | reflexivity].
  - reflexivity.
Qed.

(** X2.  When the download has a "Close" group, the endpoint prints
    nothing and leaves the generator alone, and its response is a function
    of that group only. *)
Theorem download_with_close_has_no_side_effect d df w :
  getitem "Close" d = Ok df ->
  snd (api_get_401k_data (Ok d) w) = w /\
  forall d' w', getitem "Close" d' = Ok df ->
    fst (api_get_401k_data (Ok d') w') = fst (api_get_401k_data (Ok d) w).
Proof.
  intros Hget. split.
  - rewrite api_world, (fetch_data_close d df w Hget). reflexivity.
  - intros d' w' Hget'.
    rewrite !api_of_body, !api_body_run.
    rewrite (fetch_data_close d df w Hget), (fetch_data_close d' df w' Hget').
    destruct (clean df) as [clean_df|e]; [| reflexivity].
    destruct (JSONResponse 200 (success_content clean_df)); reflexivity.
Qed.

(** X3.  A request served by the fallback leaves NumPy's global generator
    reseeded with 42 and advanced by one block of draws per requested
    identifier (41 blocks of 194), and adds exactly one line to the
    output. *)
Theorem fallback_leaves_generator_reseeded download e w :
  download = Raise e \/ (exists d, download = Ok d /\ getitem "Close" d = Raise e) ->
  rng (snd (api_get_401k_data download w))
  = advance (length tickers * length dummy_dates) (seed 42) /\
  length tickers = 41%nat /\ length dummy_dates = 194%nat /\
  stdout (snd (api_get_401k_data download w))
  = (stdout w
     ++ [("Error fetching data: " ++ exn_str e ++ ". Generating dummy data.")%string])%list.
Proof.
  intros Hcase. rewrite api_world, (fetch_data_fallback download e w Hcase).
  cbn [snd rng stdout]. rewrite columns_from_state.
  split; [reflexivity |]. split; [reflexivity |].
  split; [exact dummy_dates_length | reflexivity].
Qed.

End ProducerProperties.

(* ===================================================================== *)
(** ** Further properties: the cleaner                                   *)
(* ===================================================================== *)

Section ListFacts.
Context {A B : Type}.

Lemma filter_map_comm (p : B -> bool) (f : A -> B) (l : list A) :
  filter p (map f l) = map f (filter (fun x => p (f x)) l).
Proof.
  induction l as [|x l IH]; simpl; [reflexivity |].
  destruct (p (f x)); simpl; rewrite IH; reflexivity.
Qed.

Lemma filter_filter_and (p q : A -> bool) (l : list A) :
  filter p (filter q l) = filter (fun x => q x && p x) l.
Proof.
  induction l as [|x l IH]; simpl; [reflexivity |].
  destruct (q x); simpl; [destruct (p x) |]; rewrite IH; reflexivity.
Qed.

Lemma filter_none (p : A -> bool) (l : list A) :
  (forall x, In x l -> p x = false) -> filter p l = [].
Proof.
  induction l as [|x l IH]; simpl; intros H; [reflexivity |].
  rewrite (H x (or_introl eq_refl)). apply IH. intros y Hy. apply H. right. exact Hy.
Qed.

Lemma forallb_false_exists (p : A -> bool) (l : list A) :
  forallb p l = false -> exists x, In x l /\ p x = false.
Proof.
  induction l as [|x l IH]; simpl; intros H; [discriminate |].
  destruct (p x) eqn:Hx.
  - destruct (IH H) as [y [Hy Hp]]. exists y. split; [right; exact Hy | exact Hp].
  - exists x. split; [left; reflexivity | exact Hx].
Qed.

End ListFacts.

Section DictOrderFacts.
Context {V : Type}.

Lemma dict_set_absent (k : string) (v : V) (d : dict V) :
  ~ In k (keys d) -> dict_set k v d = (d ++ [(k, v)])%list.
Proof.
  unfold keys. induction d as [|[k' v'] t IH]; simpl; intros Hk.
  - reflexivity.
  - destruct (String.eqb_spec k k') as [->|Hne].
    + exfalso. apply Hk. left. reflexivity.
    + f_equal. apply IH. intros Hin. apply Hk. right. exact Hin.
Qed.

Lemma fold_dict_set_distinct (items acc : list (string * V)) :
  NoDup (map fst (acc ++ items)) ->
  fold_left (fun d kv => dict_set (fst kv) (snd kv) d) items acc
  = (acc ++ items)%list.
Proof.
  revert acc. induction items as [|[k v] items IH]; intros acc Hnd; simpl.
  - rewrite app_nil_r. reflexivity.
  - assert (Hk : ~ In k (keys acc)).
    { unfold keys. rewrite map_app in Hnd. simpl in Hnd.
      apply NoDup_remove_2 in Hnd. intros Hin. apply Hnd.
      apply in_or_app. left. exact Hin. }
    rewrite (dict_set_absent k v acc Hk).
    rewrite IH; rewrite <- app_assoc; [reflexivity | exact Hnd].
Qed.

(** With pairwise different keys, [dict(items)] is the items in order. *)
Lemma dict_of_items_distinct (items : list (string * V)) :
  NoDup (map fst items) -> dict_of_items items = items.
Proof. intros H. unfold dict_of_items. apply (fold_dict_set_distinct items []), H. Qed.

Lemma NoDup_keys_combine (cols : list string) (cells : list V) :
  NoDup cols -> NoDup (map fst (combine cols cells)).
Proof.
  intros Hnd. revert cells.
  induction Hnd as [|c cols Hc Hnd IH]; intros cells; simpl; [constructor |].
  destruct cells as [|v cells]; simpl; [constructor |].
  constructor; [| apply IH].
  intros Hin. apply Hc. apply in_map_iff in Hin.
  destruct Hin as [[k x] [Hk Hkx]]. simpl in Hk. subst k.
  eapply in_combine_l, Hkx.
Qed.

Lemma NoDup_keys_filter (q : string * V -> bool) (items : list (string * V)) :
  NoDup (map fst items) -> NoDup (map fst (filter q items)).
Proof.
  induction items as [|[k v] items IH]; simpl; intros Hnd; [constructor |].
  inversion Hnd as [|? ? Hk Hrest]; subst.
  destruct (q (k, v)); simpl; [| apply IH, Hrest].
  constructor; [| apply IH, Hrest].
  intros Hin. apply Hk. apply in_map_iff in Hin.
  destruct Hin as [kv [Hfst Hkv]]. apply filter_In in Hkv.
  apply in_map_iff. exists kv. split; [exact Hfst | apply Hkv].
Qed.

End DictOrderFacts.

Section CleanerProperties.
Context {F : Float64} {G : Rng F}.

(** Dropping labels from the columns and from the cells of a row keeps
    labels and cells aligned. *)
Lemma combine_drop (labels cols : list string) (cells : list num) :
  combine (filter (fun c => negb (mem c labels)) cols) (drop_cells labels cols cells)
  = filter (fun kv => negb (mem (fst kv) labels)) (combine cols cells).
Proof.
  unfold drop_cells. revert cells.
  induction cols as [|c cols IH]; intros cells; [reflexivity |].
  destruct cells as [|v cells].
  - generalize (filter (fun c0 => negb (mem c0 labels)) (c :: cols)).
    intros l. destruct l; reflexivity.
  - simpl. destruct (negb (mem c labels)); simpl; rewrite IH; reflexivity.
Qed.

(** X4.  On a table with ascending dates that has the column 'VFSVX', the
    cleaner is one filter followed by one projection: it keeps, in order,
    the rows dated from 2022-07-05 whose cells other than those of 'VFSVX'
    hold no NaN, and removes the 'VFSVX' cells from them; the columns are
    the others, in order. *)
Theorem clean_is_filter_then_projection (data : DataFrame) :
  monotonic_increasing (index data) ->
  In "VFSVX" (columns data) ->
  exists clean_df,
    clean data = Ok clean_df /\
    columns clean_df = filter (fun k => negb (mem k ["VFSVX"])) (columns data) /\
    rows clean_df
    = map (fun r => (fst r, drop_cells ["VFSVX"] (columns data) (snd r)))
        (filter (fun r =>
                   (cutoff <=? fst r)
                   && negb (existsb is_nan
                              (drop_cells ["VFSVX"] (columns data) (snd r))))
                (rows data)) /\
    (len clean_df <= len data)%nat.
Proof.
  intros Hs Hin. eexists. split; [apply clean_ok, Hin |].
  split; [reflexivity |].
  assert (Hrows :
    rows (dropna (mk_frame
            (filter (fun k => negb (mem k ["VFSVX"])) (columns data))
            (map (fun r => (fst r, drop_cells ["VFSVX"] (columns data) (snd r)))
                 (rows (loc_from cutoff data)))))
    = map (fun r => (fst r, drop_cells ["VFSVX"] (columns data) (snd r)))
        (filter (fun r =>
                   (cutoff <=? fst r)
                   && negb (existsb is_nan
                              (drop_cells ["VFSVX"] (columns data) (snd r))))
                (rows data))).
  { unfold dropna. cbn [rows columns].
    rewrite (loc_from_rows cutoff data Hs).
    rewrite filter_map_comm. cbn [snd]. rewrite filter_filter_and. reflexivity. }
  split; [exact Hrows |].
  unfold len. rewrite Hrows, length_map. apply filter_length_le.
Qed.

(** X5.  When the column labels are pairwise different, each record of
    the cleaned table is the list of (label, cell) pairs of its row of the
    input, in column order, without the pair of 'VFSVX': cells are carried
    unchanged under their own label. *)
Theorem records_are_rows_without_VFSVX (data clean_df : DataFrame) :
  NoDup (columns data) ->
  clean data = Ok clean_df ->
  to_dict_records clean_df
  = map (fun r => filter (fun kv => negb (mem (fst kv) ["VFSVX"]))
                    (combine (columns data) (snd r)))
      (filter (fun r => negb (existsb is_nan
                                (drop_cells ["VFSVX"] (columns data) (snd r))))
              (rows (loc_from cutoff data))).
Proof.
  intros Hnd Hclean. apply clean_inv in Hclean. destruct Hclean as [_ ->].
  unfold to_dict_records, dropna. cbn [rows columns].
  rewrite filter_map_comm, map_map. cbn [snd].
  apply map_ext. intros r.
  rewrite combine_drop. apply dict_of_items_distinct.
  apply NoDup_keys_filter, NoDup_keys_combine, Hnd.
Qed.


(** X7.  A downloaded table with the column 'VFSVX' whose dates all lie
    before 2022-07-05 is not an error: the response has status 200, an
    empty [data] array and [row_count] 0. *)
Theorem table_before_cutoff_gives_empty_success d (data : DataFrame) w :
  getitem "Close" d = Ok data ->
  In "VFSVX" (columns data) ->
  monotonic_increasing (index data) ->
  Forall (fun x => x < cutoff) (index data) ->
  fst (api_get_401k_data (Ok d) w)
  = Ok (mk_response 200
          (JObj [ ("status", JStr "success");
                  ("message", JStr "401k portfolio data fetched and cleaned.");
                  ("data", JArr []);
                  ("row_count", JInt 0) ])).
Proof.
  intros Hget Hin Hs Hbefore.
  rewrite api_of_body, api_body_run, (fetch_data_close d data w Hget).
  rewrite (clean_ok data Hin). rewrite (loc_from_rows cutoff data Hs).
  match goal with
  | |- context [filter ?p (rows data)] => rewrite (filter_none p (rows data))
  end.
  - reflexivity.
  - intros r Hr. apply Z.leb_gt. rewrite Forall_forall in Hbefore.
    apply Hbefore. unfold index. apply in_map, Hr.
Qed.

End CleanerProperties.

(* ===================================================================== *)
(** ** Further properties: the responses                                 *)
(* ===================================================================== *)

Section ResponseProperties.
Context {F : Float64} {G : Rng F}.

Lemma compliant_success_true (clean_df : DataFrame) :
  compliant (success_content clean_df) = true ->
  forall rec kv, In rec (to_dict_records clean_df) -> In kv rec ->
    is_nan (snd kv) = false /\ is_inf (snd kv) = false.
Proof.
  unfold success_content. simpl. rewrite andb_true_r.
  intros H rec kv Hrec Hkv. rewrite forallb_forall in H.
  specialize (H (record_json rec) (in_map record_json _ _ Hrec)).
  simpl in H. rewrite forallb_forall in H.
  specialize (H _ (in_map (fun kv => (fst kv, JNum (snd kv))) _ _ Hkv)).
  simpl in H. apply negb_true_iff, orb_false_iff in H. exact H.
Qed.

Lemma compliant_success_false (clean_df : DataFrame) :
  compliant (success_content clean_df) = false ->
  exists rec kv, In rec (to_dict_records clean_df) /\ In kv rec /\
    (is_nan (snd kv) = true \/ is_inf (snd kv) = true).
Proof.
  unfold success_content. simpl. rewrite andb_true_r. intros H.
  apply forallb_false_exists in H. destruct H as [j [Hj Hc]].
  apply in_map_iff in Hj. destruct Hj as [rec [<- Hrec]].
  simpl in Hc. apply forallb_false_exists in Hc. destruct Hc as [m [Hm Hv]].
  apply in_map_iff in Hm. destruct Hm as [kv [<- Hkv]]. simpl in Hv.
  exists rec, kv. split; [exact Hrec |]. split; [exact Hkv |].
  apply negb_false_iff, orb_true_iff in Hv. exact Hv.
Qed.

(** X8.  When the downloaded table, if any, has its dates in ascending
    order, the status of a response is 200 or 500, and it is 500 exactly
    when the produced table has no column 'VFSVX' or a record of the
    cleaned table holds an infinity: on such tables these are the only two
    causes of an error response. *)
Theorem status_500_iff_missing_column_or_infinity download w resp data :
  sorted_download download ->
  fst (api_get_401k_data download w) = Ok resp ->
  fst (fetch_data download w) = Ok data ->
  (status_code resp = 200 \/ status_code resp = 500) /\
  (status_code resp = 500 <->
   ~ In "VFSVX" (columns data) \/
   exists clean_df rec kv,
     clean data = Ok clean_df /\ In rec (to_dict_records clean_df) /\
     In kv rec /\ is_inf (snd kv) = true).
Proof.
  intros _. rewrite api_of_body, api_body_run.
  destruct (fetch_data download w) as [[data'|e] w']; cbn [fst];
    intros Hresp Hdata; [| discriminate].
  assert (data' = data) by congruence. subst data'. clear Hdata.
  destruct (in_dec string_dec "VFSVX" (columns data)) as [Hin|Hnin].
  - pose proof (clean_ok data Hin) as Hclean. rewrite Hclean in Hresp.
    set (clean_df := dropna _) in *. unfold JSONResponse in Hresp.
    destruct (compliant (success_content clean_df)) eqn:Hc; cbn [fst] in Hresp.
    + assert (Hr : resp = mk_response 200 (success_content clean_df)) by congruence.
      subst resp. cbn [status_code]. split; [left; reflexivity |]. split.
      * discriminate.
      * intros [Hnin | (cdf & rec & kv & Hcdf & Hrec & Hkv & Hinf)]; [contradiction |].
        assert (cdf = clean_df) by congruence. subst cdf.
        destruct (compliant_success_true _ Hc rec kv Hrec Hkv) as [_ Hfin].
        congruence.
    + assert (Hr : resp = mk_response 500 (error_content out_of_range)) by congruence.
      subst resp. cbn [status_code]. split; [right; reflexivity |]. split.
      * intros _. right.
        destruct (compliant_success_false _ Hc) as (rec & kv & Hrec & Hkv & Hbad).
        exists clean_df, rec, kv. repeat split; try assumption.
        destruct Hbad as [Hnan | Hinf]; [| exact Hinf].
        pose proof (cleaned_records _ _ Hclean) as Hall.
        rewrite Forall_forall in Hall. specialize (Hall rec Hrec).
        rewrite Forall_forall in Hall. destruct (Hall kv Hkv) as [_ Hnn]. congruence.
      * reflexivity.
  - rewrite (clean_missing data Hnin) in Hresp. cbn [fst] in Hresp.
    assert (Hr : resp = mk_response 500 (error_content (not_found_in_axis ["VFSVX"])))
      by congruence.
    subst resp. cbn [status_code]. split; [right; reflexivity |]. split.
    + intros _. left. exact Hnin.
    + reflexivity.
Qed.

End ResponseProperties.

(* ===================================================================== *)
(** ** Further properties: the synthetic response                        *)
(* ===================================================================== *)

Section SyntheticProperties.
Context {F : Float64} {G : Rng F}.

Lemma add_column_width (m : nat) (rs : list (date * list num)) col :
  Forall (fun r => length (snd r) = m) rs ->
  Forall (fun r => length (snd r) = S m) (add_column rs col).
Proof.
  intros Hrs. revert col.
  induction Hrs as [|[d cells] rs Hr _ IH]; intros col; simpl; [constructor |].
  destruct col as [|v col]; constructor; [| apply IH].
  simpl in *. rewrite length_app. simpl. lia.
Qed.

Lemma fold_add_column_width cols (m : nat) (rs : list (date * list num)) :
  Forall (fun r => length (snd r) = m) rs ->
  Forall (fun r => length (snd r) = (length cols + m)%nat)
    (fold_left add_column cols rs).
Proof.
  revert m rs. induction cols as [|c cols IH]; intros m rs Hrs; simpl.
  - exact Hrs.
  - replace (S (length cols + m)) with (length cols + S m)%nat by lia.
    apply IH, add_column_width, Hrs.
Qed.

(** Every row of a constructed frame has one cell per column. *)
Lemma DataFrame_of_dict_width (data : dict (list num)) (idx : list date) df :
  DataFrame_of_dict data idx = Ok df ->
  Forall (fun r => length (snd r) = length (columns df)) (rows df).
Proof.
  unfold DataFrame_of_dict.
  destruct (forallb _ data); intros H; [| discriminate].
  assert (Hdf : df = mk_frame (keys data)
            (fold_left add_column (map snd data) (map (fun d => (d, [])) idx)))
    by congruence.
  subst df. cbn [columns rows]. unfold keys.
  replace (length (map fst data)) with (length (map snd data) + 0)%nat
    by (rewrite !length_map; lia).
  apply fold_add_column_width. apply Forall_forall. intros r Hr.
  apply in_map_iff in Hr. destruct Hr as [d [<- _]]. reflexivity.
Qed.

Lemma searchsorted_left_zero (idx : list date) (start : date) :
  Forall (fun d => start <= d) idx -> searchsorted_left idx start = O.
Proof.
  intros H. destruct H as [|d idx Hd _]; simpl; [reflexivity |].
  destruct (Z.ltb_spec d start); [lia | reflexivity].
Qed.

Lemma keys_combine (cols : list string) (cells : list num) :
  length cells = length cols -> map fst (combine cols cells) = cols.
Proof.
  revert cells. induction cols as [|c cols IH]; intros cells Hlen; simpl.
  - reflexivity.
  - destruct cells as [|v cells]; [discriminate |]. simpl. f_equal.
    apply IH. simpl in Hlen. congruence.
Qed.

(** The keys of the record of a full row are the kept labels, in order. *)
Lemma record_keys (labels cols : list string) (cells : list num) :
  NoDup cols -> length cells = length cols ->
  keys (dict_of_items
          (combine (filter (fun c => negb (mem c labels)) cols)
                   (drop_cells labels cols cells)))
  = filter (fun c => negb (mem c labels)) cols.
Proof.
  intros Hnd Hlen. rewrite combine_drop.
  rewrite dict_of_items_distinct
    by (apply NoDup_keys_filter, NoDup_keys_combine, Hnd).
  unfold keys.
  rewrite <- (keys_combine cols cells Hlen) at 2.
  rewrite filter_map_comm. reflexivity.
Qed.

Lemma dummy_frame_width (df : DataFrame) :
  dummy_frame = Ok df ->
  Forall (fun r => length (snd r) = length (columns df)) (rows df).
Proof. unfold dummy_frame. apply DataFrame_of_dict_width. Qed.

(** After the projection every row-object has the kept labels as its
    keys, in order. *)
Lemma projected_records_keys (labels cols : list string)
    (rs : list (date * list num)) :
  NoDup cols ->
  Forall (fun r => length (snd r) = length cols) rs ->
  Forall (fun j => exists members,
            j = JObj members /\
            map fst members = filter (fun c => negb (mem c labels)) cols)
    (map record_json
       (to_dict_records
          (mk_frame (filter (fun c => negb (mem c labels)) cols)
             (map (fun r => (fst r, drop_cells labels cols (snd r))) rs)))).
Proof.
  intros Hnd Hwidth. apply Forall_forall. intros j Hj.
  apply in_map_iff in Hj. destruct Hj as [rec [<- Hrec]].
  unfold to_dict_records in Hrec. cbn [rows columns] in Hrec.
  rewrite map_map in Hrec. apply in_map_iff in Hrec.
  destruct Hrec as [r [<- Hr]]. cbn [snd].
  eexists. split; [reflexivity |]. rewrite map_map.
  rewrite Forall_forall in Hwidth.
  etransitivity; [| exact (record_keys labels cols (snd r) Hnd (Hwidth r Hr))].
  unfold keys. apply map_ext. intros kv. reflexivity.
Qed.

(** The cleaned synthetic table when no generated price is a NaN: no row
    is lost, only the column 'VFSVX'. *)
Lemma synthetic_clean (rs : list (date * list num)) :
  map fst rs = dummy_dates ->
  all_cells (fun x => is_nan x = false) (mk_frame tickers rs) ->
  clean (mk_frame tickers rs)
  = Ok (mk_frame (filter (fun k => negb (mem k ["VFSVX"])) tickers)
          (map (fun r => (fst r, drop_cells ["VFSVX"] tickers (snd r))) rs)).
Proof.
  intros Hidx Hnan.
  rewrite (clean_ok (mk_frame tickers rs) VFSVX_requested).
  unfold loc_from, index, dropna. cbn [rows columns].
  rewrite Hidx, (searchsorted_left_zero dummy_dates cutoff dummy_dates_after_cutoff).
  cbn [skipn]. f_equal. f_equal.
  apply forallb_filter_id. apply forallb_forall. intros r Hr.
  apply in_map_iff in Hr. destruct Hr as [r0 [<- Hr0]]. cbn [snd].
  apply negb_true_iff.
  destruct (existsb is_nan (drop_cells ["VFSVX"] tickers (snd r0))) eqn:E;
    [| reflexivity].
  apply existsb_exists in E. destruct E as [x [Hx Hn]].
  apply drop_cells_incl in Hx.
  unfold all_cells in Hnan. cbn [rows] in Hnan.
  rewrite Forall_forall in Hnan. specialize (Hnan r0 Hr0).
  rewrite Forall_forall in Hnan. rewrite (Hnan x Hx) in Hn. discriminate.
Qed.

(** X9.  When no generated price is a NaN or an infinity, a request
    served by the fallback answers with status 200, [row_count] 194 and
    194 row-objects, one per business day, each with the 40 requested
    identifiers other than 'VFSVX' as its keys, in the order of the
    lists. *)
Theorem synthetic_response_shape e w data :
  dummy_frame = Ok data ->
  all_cells (fun x => is_nan x = false /\ is_inf x = false) data ->
  exists recs,
    fst (api_get_401k_data (Raise e) w)
    = Ok (mk_response 200
            (JObj [ ("status", JStr "success");
                    ("message", JStr "401k portfolio data fetched and cleaned.");
                    ("data", JArr recs);
                    ("row_count", JInt 194) ])) /\
    length recs = 194%nat /\
    Forall (fun j => exists members,
              j = JObj members /\
              map fst members = filter (fun k => negb (mem k ["VFSVX"])) tickers)
           recs /\
    length (filter (fun k => negb (mem k ["VFSVX"])) tickers) = 40%nat.
Proof.
  intros Hdata Hfin.
  destruct dummy_frame_ok as (rs & Hok & Hidx & _).
  rewrite Hok in Hdata.
  assert (Hd : data = mk_frame tickers rs) by congruence. subst data. clear Hdata.
  assert (Hwidth : Forall (fun r => length (snd r) = length tickers) rs).
  { exact (dummy_frame_width _ Hok). }
  assert (Hnan : all_cells (fun x => is_nan x = false) (mk_frame tickers rs)).
  { unfold all_cells in *. eapply Forall_impl; [| exact Hfin]. intros r Hr.
    eapply Forall_impl; [| exact Hr]. intros x [Hx _]. exact Hx. }
  assert (Hinf : no_inf (mk_frame tickers rs)).
  { unfold no_inf, all_cells in *. eapply Forall_impl; [| exact Hfin]. intros r Hr.
    eapply Forall_impl; [| exact Hr]. intros x [_ Hx]. exact Hx. }
  pose proof (synthetic_clean rs Hidx Hnan) as Hclean.
  assert (Hlen : length rs = 194%nat).
  { rewrite <- (length_map fst rs), Hidx. exact dummy_dates_length. }
  set (clean_df := mk_frame (filter (fun k => negb (mem k ["VFSVX"])) tickers)
          (map (fun r => (fst r, drop_cells ["VFSVX"] tickers (snd r))) rs)) in *.
  exists (map record_json (to_dict_records clean_df)).
  split; [| split; [| split]].
  - rewrite api_of_body, api_body_run.
    rewrite (fetch_data_fallback (Raise e) e w (or_introl eq_refl)), Hok.
    cbv beta iota. rewrite Hclean. unfold JSONResponse.
    rewrite success_content_compliant;
      [| apply (clean_no_nan _ _ Hclean) | apply (clean_cells _ _ _ Hclean), Hinf].
    cbn [fst]. unfold success_content, len, clean_df. cbn [rows].
    rewrite length_map, Hlen. reflexivity.
  - unfold to_dict_records, clean_df. cbn [rows]. rewrite !length_map. exact Hlen.
  - exact (projected_records_keys ["VFSVX"] tickers rs tickers_NoDup Hwidth).
  - vm_compute. reflexivity.
Qed.

End SyntheticProperties.

(* --------------------------------------------------------------------- *)
(** *** Witnesses of the further properties                              *)
(* --------------------------------------------------------------------- *)

Lemma sample_columns_NoDup : NoDup (columns sample_close).
Proof. apply distinct_NoDup. vm_compute. reflexivity. Qed.

Lemma sample_close_cleaned : clean sample_close = Ok sample_clean.
Proof. vm_compute. reflexivity. Qed.

Lemma sample_early_sorted : monotonic_increasing (index sample_early).
Proof.
  unfold monotonic_increasing, index. simpl.
  repeat constructor; vm_compute; discriminate.
Qed.

Lemma sample_early_before : Forall (fun x => x < cutoff) (index sample_early).
Proof. unfold index. simpl. repeat constructor; vm_compute; reflexivity. Qed.

(** On the idealised instance every synthetic price is a real. *)
Lemma ideal_dummy_finite (data : DataFrame) :
  dummy_frame = Ok data ->
  all_cells (fun x => is_nan x = false /\ is_inf x = false) data.
Proof.
  intros Hd. destruct dummy_frame_ok as (rs & Hok & _ & Hcells).
  rewrite Hok in Hd. assert (Hdata : data = mk_frame tickers rs) by congruence.
  subst data. specialize (Hcells is_fin (fun st => walk_fin _ (replay_draws_fin _ st))).
  unfold all_cells in *.
  eapply Forall_impl; [| exact Hcells]. intros r Hr.
  eapply Forall_impl; [| exact Hr]. intros x [s ->]. split; reflexivity.
Qed.

Lemma download_without_close_falls_back_witness :
  dict_get "Close" sample_open_only = None /\
  stdout (snd (fetch_data (Ok sample_open_only) w0))
  = ["Error fetching data: 'Close'. Generating dummy data."].
Proof.
  split; [reflexivity |].
  exact (proj2 (proj2 (download_without_close_falls_back sample_open_only w0 eq_refl))).
Defined.

Lemma download_with_close_has_no_side_effect_witness :
  getitem "Close" [("Close", sample_close); ("Volume", mk_frame [] [])]
  = Ok sample_close /\
  snd (api_get_401k_data
         (Ok [("Close", sample_close); ("Volume", mk_frame [] [])]) w0) = w0.
Proof.
  split; [reflexivity |].
  exact (proj1 (download_with_close_has_no_side_effect
                  [("Close", sample_close); ("Volume", mk_frame [] [])]
                  sample_close w0 eq_refl)).
Defined.

Lemma fallback_leaves_generator_reseeded_witness :
  rng (snd (api_get_401k_data (Raise connection_error) w0))
  = advance (length tickers * length dummy_dates) (seed 42).
Proof.
  exact (proj1 (fallback_leaves_generator_reseeded (Raise connection_error)
                  connection_error w0 (or_introl eq_refl))).
Defined.

Lemma clean_is_filter_then_projection_witness :
  monotonic_increasing (index sample_close) /\
  In "VFSVX" (columns sample_close) /\
  exists clean_df, clean sample_close = Ok clean_df /\
                   (len clean_df <= len sample_close)%nat.
Proof.
  assert (Hin : In "VFSVX" (columns sample_close)) by (right; left; reflexivity).
  split; [exact sample_close_sorted |]. split; [exact Hin |].
  destruct (clean_is_filter_then_projection sample_close sample_close_sorted Hin)
    as (clean_df & Hclean & _ & _ & Hlen).
  exists clean_df. split; assumption.
Defined.

Lemma records_are_rows_without_VFSVX_witness :
  NoDup (columns sample_close) /\
  clean sample_close = Ok sample_clean /\
  to_dict_records sample_clean
  = map (fun r => filter (fun kv => negb (mem (fst kv) ["VFSVX"]))
                    (combine (columns sample_close) (snd r)))
      (filter (fun r => negb (existsb is_nan
                                (drop_cells ["VFSVX"] (columns sample_close) (snd r))))
              (rows (loc_from cutoff sample_close))).
Proof.
  split; [exact sample_columns_NoDup |]. split; [exact sample_close_cleaned |].
  exact (records_are_rows_without_VFSVX sample_close sample_clean
           sample_columns_NoDup sample_close_cleaned).
Defined.


Lemma table_before_cutoff_gives_empty_success_witness :
  In "VFSVX" (columns sample_early) /\
  Forall (fun x => x < cutoff) (index sample_early) /\
  fst (api_get_401k_data (Ok [("Close", sample_early)]) w0)
  = Ok (mk_response 200
          (JObj [ ("status", JStr "success");
                  ("message", JStr "401k portfolio data fetched and cleaned.");
                  ("data", JArr []);
                  ("row_count", JInt 0) ])).
Proof.
  assert (Hin : In "VFSVX" (columns sample_early)) by (right; left; reflexivity).
  split; [exact Hin |]. split; [exact sample_early_before |].
  exact (table_before_cutoff_gives_empty_success [("Close", sample_early)]
           sample_early w0 eq_refl Hin sample_early_sorted sample_early_before).
Defined.

Lemma status_500_iff_missing_column_or_infinity_witness :
  sorted_download (Ok [("Close", sample_inf)]) /\
  fst (api_get_401k_data (Ok [("Close", sample_inf)]) w0)
  = Ok (mk_response 500 (error_content out_of_range)) /\
  fst (fetch_data (Ok [("Close", sample_inf)]) w0) = Ok sample_inf /\
  In "VFSVX" (columns sample_inf) /\
  exists clean_df rec kv,
    clean sample_inf = Ok clean_df /\ In rec (to_dict_records clean_df) /\
    In kv rec /\ is_inf (snd kv) = true.
Proof.
  assert (Hs : sorted_download (Ok [("Close", sample_inf)])).
  { intros d df Hd Hget. assert (Hd' : d = [("Close", sample_inf)]) by congruence.
    subst d.
    assert (Hclose : getitem "Close" [("Close", sample_inf)] = Ok sample_inf)
      by reflexivity.
    rewrite Hclose in Hget. assert (Hdf : df = sample_inf) by congruence.
    subst df. unfold monotonic_increasing, index. simpl. repeat constructor. }
  assert (Hresp : fst (api_get_401k_data (Ok [("Close", sample_inf)]) w0)
                  = Ok (mk_response 500 (error_content out_of_range)))
    by (vm_compute; reflexivity).
  assert (Hdata : fst (fetch_data (Ok [("Close", sample_inf)]) w0) = Ok sample_inf)
    by (vm_compute; reflexivity).
  assert (Hin : In "VFSVX" (columns sample_inf)) by (right; left; reflexivity).
  split; [exact Hs |]. split; [exact Hresp |]. split; [exact Hdata |].
  split; [exact Hin |].
  destruct (proj1 (proj2 (status_500_iff_missing_column_or_infinity
                            (Ok [("Close", sample_inf)]) w0 _ sample_inf
                            Hs Hresp Hdata)) eq_refl)
    as [Hnin | Hex]; [contradiction | exact Hex].
Defined.

Lemma synthetic_response_shape_witness :
  exists data recs,
    dummy_frame = Ok data /\
    fst (api_get_401k_data (Raise connection_error) w0)
    = Ok (mk_response 200
            (JObj [ ("status", JStr "success");
                    ("message", JStr "401k portfolio data fetched and cleaned.");
                    ("data", JArr recs);
                    ("row_count", JInt 194) ])) /\
    length recs = 194%nat.
Proof.
  destruct dummy_frame_ok as (rs & Hok & _ & _).
  destruct (synthetic_response_shape connection_error w0 (mk_frame tickers rs) Hok
              (ideal_dummy_finite _ Hok))
    as (recs & Hresp & Hlen & _).
  exists (mk_frame tickers rs), recs. split; [exact Hok |]. split; assumption.
Defined.

(* ===================================================================== *)
(** ** Magnitudes of the synthetic prices                                *)
(* ===================================================================== *)

Section MagnitudeFacts.
Context {F : Float64} {G : Rng F} {B : Bounded F} {L : Binary64Laws F G B}.

Lemma draws_within n st :
  Forall (fun z => within z 13) (fst (Np.gauss_draws n st)).
Proof.
  revert st. induction n as [|n IH]; intros st.
  - constructor.
  - rewrite gauss_draws_S_fst. constructor; [apply within_gauss | apply IH].
Qed.

(** One step of the walk, [0.0002 + 0.01 * z], is below 0.15 in
    magnitude. *)
Lemma step_within z :
  within z 13 ->
  within (fadd (flit (2 # 10000)) (fmul (flit (1 # 100)) z)) (3 # 20).
Proof.
  intros Hz.
  assert (Hs : within (flit (1 # 100)) ((1 # 100) * (1 + eps)))
    by (apply within_lit; vm_compute; discriminate).
  assert (Hl : within (flit (2 # 10000)) ((2 # 10000) * (1 + eps)))
    by (apply within_lit; vm_compute; discriminate).
  assert (Hm := within_mul _ _ _ _ Hs Hz).
  assert (Hm' : within (fmul (flit (1 # 100)) z)
                  ((1 # 100) * (1 + eps) * 13 * (1 + eps) + tiny))
    by (apply Hm; vm_compute; discriminate).
  assert (Ha := within_add _ _ _ _ Hl Hm').
  eapply within_weaken; [apply Ha |]; vm_compute; discriminate.
Qed.

Lemma cumsum_from_within a acc b :
  within acc b -> Forall (fun x => within x (3 # 20)) a ->
  (b + inject_Z (Z.of_nat (length a)) * (1 # 5) <= 100)%Q ->
  Forall (fun x => within x 100) (Np.cumsum_from acc a).
Proof.
  intros Hacc Ha. revert acc b Hacc.
  induction Ha as [|x a Hx _ IH]; intros acc b Hacc Hb; simpl.
  - constructor.
  - assert (Hn : (0 <= inject_Z (Z.of_nat (length a)))%Q)
      by (unfold Qle; simpl; lia).
    assert (Hsucc : (inject_Z (Z.of_nat (length (x :: a)))
                     == inject_Z (Z.of_nat (length a)) + 1)%Q).
    { simpl length. rewrite Nat2Z.inj_succ. unfold Z.succ.
      rewrite inject_Z_plus. reflexivity. }
    rewrite Hsucc in Hb.
    assert (Hbig : (101 <= big)%Q) by (vm_compute; discriminate).
    assert (Hstep : within (fadd acc x) (b + (1 # 5))).
    { eapply within_weaken.
      - apply (within_add _ _ _ _ Hacc Hx).
        apply Qle_trans with 101%Q; [lra | exact Hbig].
      - unfold eps. lra. }
    constructor.
    + eapply within_weaken; [exact Hstep | lra].
    + apply (IH _ _ Hstep). lra.
Qed.

Lemma cumsum_within a :
  Forall (fun x => within x (3 # 20)) a -> (length a <= 400)%nat ->
  Forall (fun x => within x 100) (Np.cumsum a).
Proof.
  intros Ha Hlen. destruct Ha as [|x a Hx Ha]; simpl; [constructor |].
  assert (Hq : (inject_Z (Z.of_nat (length a)) <= 400)%Q)
    by (simpl in Hlen; unfold Qle; simpl; lia).
  constructor.
  - eapply within_weaken; [exact Hx | vm_compute; discriminate].
  - apply (cumsum_from_within a x (3 # 20) Hx Ha). lra.
Qed.

(** A price [100 * exp c] with [|c| <= 100] is a number. *)
Lemma price_finite c :
  within c 100 ->
  is_nan (fmul (flit (100 # 1)) (fexp c)) = false /\
  is_inf (fmul (flit (100 # 1)) (fexp c)) = false.
Proof.
  intros Hc.
  assert (He : within (fexp c) (2 * inject_Z (3 ^ Qceiling 100)))
    by (apply within_exp; [exact Hc | vm_compute; discriminate]).
  assert (Hh : within (flit (100 # 1)) ((100 # 1) * (1 + eps)))
    by (apply within_lit; vm_compute; discriminate).
  eapply within_finite. apply (within_mul _ _ _ _ Hh He).
  vm_compute. discriminate.
Qed.

Lemma walk_finite zs :
  Forall (fun z => within z 13) zs -> (length zs <= 400)%nat ->
  Forall (fun x => is_nan x = false /\ is_inf x = false) (walk zs).
Proof.
  intros Hzs Hlen. unfold walk, Np.scale, Np.exp. rewrite map_map.
  apply Forall_forall. intros x Hx. apply in_map_iff in Hx.
  destruct Hx as [c [<- Hc]]. apply price_finite.
  assert (Hall : Forall (fun x => within x 100)
            (Np.cumsum (map (fun z => fadd (flit (2 # 10000))
                                        (fmul (flit (1 # 100)) z)) zs))).
  { apply cumsum_within; [| rewrite length_map; exact Hlen].
    apply Forall_forall. intros d Hd. apply in_map_iff in Hd.
    destruct Hd as [z [<- Hz]]. apply step_within.
    rewrite Forall_forall in Hzs. apply Hzs, Hz. }
  rewrite Forall_forall in Hall. apply Hall, Hc.
Qed.

(** Every cell of the synthetic table is a number. *)
Lemma dummy_frame_finite (data : DataFrame) :
  dummy_frame = Ok data ->
  all_cells (fun x => is_nan x = false /\ is_inf x = false) data.
Proof.
  intros Hd. destruct dummy_frame_ok as (rs & Hok & _ & Hcells).
  rewrite Hok in Hd. assert (Hdata : data = mk_frame tickers rs) by congruence.
  subst data. apply Hcells. intros st. apply walk_finite.
  - apply draws_within.
  - rewrite gauss_draws_length, dummy_dates_length. lia.
Qed.

End MagnitudeFacts.

(* ===================================================================== *)
(** ** The cells of the synthetic table                                  *)
(* ===================================================================== *)

Section CellFacts.
Context {F : Float64} {G : Rng F}.

Lemma add_column_nth (rs : list (date * list num)) col k d cells :
  nth_error (add_column rs col) k = Some (d, cells) ->
  exists cells0 v,
    nth_error rs k = Some (d, cells0) /\ nth_error col k = Some v /\
    cells = (cells0 ++ [v])%list.
Proof.
  revert col k. induction rs as [|[d0 c0] rs IH]; intros col k H.
  - destruct k; discriminate.
  - destruct col as [|v col]; [destruct k; discriminate |].
    destruct k as [|k]; simpl in H.
    + assert (Hd : d0 = d) by congruence.
      assert (Hc : (c0 ++ [v])%list = cells) by congruence.
      subst. exists c0, v. repeat split.
    + apply IH in H. exact H.
Qed.

(** After the columns [cols] are added, the row at position [k] holds
    the entries at position [k] of the columns, in order, after its
    earlier cells. *)
Lemma fold_add_column_nth cols (rs : list (date * list num)) k d cells :
  nth_error (fold_left add_column cols rs) k = Some (d, cells) ->
  exists cells0,
    nth_error rs k = Some (d, cells0) /\
    map Some cells = (map Some cells0 ++ map (fun c => nth_error c k) cols)%list.
Proof.
  revert rs. induction cols as [|c cols IH]; intros rs H; simpl in H.
  - exists cells. split; [exact H |]. simpl. rewrite app_nil_r. reflexivity.
  - destruct (IH _ H) as (cells1 & H1 & Hmap).
    destruct (add_column_nth _ _ _ _ _ H1) as (cells0 & v & H0 & Hv & ->).
    exists cells0. split; [exact H0 |].
    rewrite Hmap, map_app, <- app_assoc. simpl. rewrite Hv. reflexivity.
Qed.

(** The cells of row [k] of a constructed frame are the entries at
    position [k] of the arrays, in the order of the keys. *)
Lemma DataFrame_of_dict_cells (data : dict (list num)) (idx : list date) df
    k d cells :
  DataFrame_of_dict data idx = Ok df ->
  nth_error (rows df) k = Some (d, cells) ->
  map Some cells = map (fun c => nth_error c k) (map snd data).
Proof.
  unfold DataFrame_of_dict.
  destruct (forallb _ data); intros H Hk; [| discriminate].
  assert (Hdf : df = mk_frame (keys data)
            (fold_left add_column (map snd data) (map (fun d => (d, [])) idx)))
    by congruence.
  subst df. cbn [rows] in Hk.
  destruct (fold_add_column_nth _ _ _ _ _ Hk) as (cells0 & H0 & Hmap).
  rewrite nth_error_map in H0.
  destruct (nth_error idx k) as [d'|]; [| discriminate]. simpl in H0.
  assert (Hc : cells0 = []) by congruence. subst cells0. exact Hmap.
Qed.

Lemma dummy_frame_cells (df : DataFrame) k d cells :
  dummy_frame = Ok df ->
  nth_error (rows df) k = Some (d, cells) ->
  map Some cells
  = map (fun c => nth_error c k)
      (map snd (fst (columns_from (length dummy_dates) tickers (seed 42) []))).
Proof. unfold dummy_frame. apply DataFrame_of_dict_cells. Qed.

Lemma dict_get_nth {V} (d : dict V) i t :
  NoDup (keys d) -> nth_error (keys d) i = Some t ->
  dict_get t d = nth_error (map snd d) i.
Proof.
  unfold keys. revert i. induction d as [|[k v] d IH]; intros i Hnd Hi.
  - destruct i; discriminate.
  - simpl in Hnd. inversion Hnd as [|? ? Hk Hrest]; subst.
    destruct i as [|i]; simpl in Hi |- *.
    + assert (k = t) by congruence. subst. rewrite String.eqb_refl. reflexivity.
    + destruct (String.eqb_spec t k) as [->|Hne].
      * exfalso. apply Hk. eapply nth_error_In, Hi.
      * apply IH; assumption.
Qed.

(** The cell of the synthetic table at row [k] and column [i] is the
    price at position [k] of the series of the [i]-th identifier. *)
Lemma dummy_frame_cell (rs : list (date * list num)) i t k d cells :
  dummy_frame = Ok (mk_frame tickers rs) ->
  nth_error tickers i = Some t ->
  nth_error rs k = Some (d, cells) ->
  nth_error cells i
  = nth_error
      (walk (fst (Np.gauss_draws (length dummy_dates)
                    (advance (i * length dummy_dates) (seed 42))))) k /\
  nth_error cells i <> None.
Proof.
  intros Hok Hi Hk.
  pose proof (dummy_frame_cells _ k d cells Hok Hk) as Hmap.
  pose proof (columns_from_get (length dummy_dates) tickers (seed 42) [] i t
                tickers_NoDup Hi) as Hget.
  pose proof (columns_from_keys (length dummy_dates) tickers (seed 42) []
                tickers_NoDup (fun k0 _ (H : In k0 []) => H)) as Hkeys.
  simpl app in Hkeys.
  set (cols := fst (columns_from (length dummy_dates) tickers (seed 42) [])) in *.
  assert (Hnth : dict_get t cols = nth_error (map snd cols) i).
  { apply dict_get_nth; rewrite Hkeys; [apply tickers_NoDup | exact Hi]. }
  rewrite Hget in Hnth.
  apply (f_equal (fun l => nth_error l i)) in Hmap.
  do 2 rewrite nth_error_map in Hmap. rewrite <- Hnth in Hmap.
  destruct (nth_error cells i) as [x|]; cbn [option_map] in Hmap; [| discriminate].
  split; [| discriminate].
  exact (f_equal (fun o => match o with Some y => y | None => None end) Hmap).
Qed.

(** The records of a projected frame with pairwise different labels. *)
Lemma projected_records (labels cols : list string)
    (rs : list (date * list num)) :
  NoDup cols ->
  to_dict_records
    (mk_frame (filter (fun c => negb (mem c labels)) cols)
       (map (fun r => (fst r, drop_cells labels cols (snd r))) rs))
  = map (fun r => filter (fun kv => negb (mem (fst kv) labels))
                    (combine cols (snd r))) rs.
Proof.
  intros Hnd. unfold to_dict_records. cbn [rows columns]. rewrite map_map.
  apply map_ext. intros r. cbn [snd]. rewrite combine_drop.
  apply dict_of_items_distinct, NoDup_keys_filter, NoDup_keys_combine, Hnd.
Qed.

End CellFacts.

(* ===================================================================== *)
(** ** The fallback, end to end                                          *)
(* ===================================================================== *)

Section FallbackProperties.
Context {F : Float64} {G : Rng F} {B : Bounded F} {L : Binary64Laws F G B}.


End FallbackProperties.

(* ===================================================================== *)
(** ** The idealised instance satisfies the laws of magnitudes           *)
(* ===================================================================== *)

Lemma Q2R_inject_Z (z : Z) : Q2R (inject_Z z) = IZR z.
Proof. unfold Q2R. simpl. rewrite Rinv_1, Rmult_1_r. reflexivity. Qed.

Lemma Q2R_eps_nonneg : (0 <= Q2R eps)%R.
Proof.
  unfold Q2R, eps. simpl.
  apply Rmult_le_pos; [lra |]. apply Rlt_le, Rinv_0_lt_compat. lra.
Qed.

Lemma Q2R_tiny_nonneg : (0 <= Q2R tiny)%R.
Proof.
  replace 0%R with (Q2R 0) by (unfold Q2R; simpl; lra).
  apply Qle_Rle. vm_compute. discriminate.
Qed.

Lemma Q2R_one_plus_eps : Q2R (1 + eps) = (1 + Q2R eps)%R.
Proof. rewrite Q2R_plus. f_equal. unfold Q2R. simpl. lra. Qed.

Lemma exp_mono (x y : R) : (x <= y)%R -> (Rtrigo_def.exp x <= Rtrigo_def.exp y)%R.
Proof.
  intros [Hlt | ->]; [apply Rlt_le, exp_increasing, Hlt | apply Rle_refl].
Qed.

Lemma exp_INR (n : nat) : Rtrigo_def.exp (INR n) = (Rtrigo_def.exp 1 ^ n)%R.
Proof.
  induction n as [|n IH].
  - simpl. apply exp_0.
  - rewrite S_INR, exp_plus, IH. simpl. ring.
Qed.

Lemma exp_le_pow3 (z : Z) : (0 <= z)%Z -> (Rtrigo_def.exp (IZR z) <= IZR (3 ^ z))%R.
Proof.
  intros Hz. rewrite <- (Z2Nat.id z Hz) at 1 2.
  rewrite <- INR_IZR_INZ, exp_INR, <- pow_IZR.
  apply pow_incr. split; [apply Rlt_le, exp_pos | apply exp_le_3].
Qed.

Lemma replay_draw_bounded (k : nat) : (Rabs (nth (k mod 10) draws_42 0) <= 13)%R.
Proof.
  pose proof (Nat.mod_upper_bound k 10) as Hk.
  destruct (k mod 10)%nat as [|[|[|[|[|[|[|[|[|[|n]]]]]]]]]];
    try (simpl; apply Rabs_le; lra).
  exfalso. lia.
Qed.

Lemma ideal_laws : Binary64Laws xreal_float replay_rng xreal_bounded.
Proof.
  constructor.
  - intros x q (r & -> & _). split; reflexivity.
  - intros x q q' (r & -> & Hr) Hq. exists r. split; [reflexivity |].
    eapply Rle_trans; [exact Hr | apply Qle_Rle, Hq].
  - intros q Ht Hb. exists (Q2R q). split; [reflexivity |].
    assert (H0 : (0 <= Q2R q)%R).
    { eapply Rle_trans; [apply Q2R_tiny_nonneg | apply Qle_Rle, Ht]. }
    rewrite Rabs_pos_eq by exact H0.
    rewrite Q2R_mult, Q2R_one_plus_eps.
    pose proof Q2R_eps_nonneg as He.
    pose proof (Rmult_le_pos _ _ H0 He). lra.
  - intros a b qa qb (ra & -> & Ha) (rb & -> & Hb) _.
    exists (ra + rb)%R. split; [reflexivity |].
    rewrite Q2R_mult, Q2R_plus, Q2R_one_plus_eps.
    pose proof (Rabs_triang ra rb) as Ht.
    pose proof (Rabs_pos ra) as Hpa. pose proof (Rabs_pos rb) as Hpb.
    pose proof Q2R_eps_nonneg as He.
    assert (Hs : (0 <= Q2R qa + Q2R qb)%R) by lra.
    pose proof (Rmult_le_pos _ _ Hs He). lra.
  - intros a b qa qb (ra & -> & Ha) (rb & -> & Hb) _.
    exists (ra * rb)%R. split; [reflexivity |].
    rewrite Q2R_plus, !Q2R_mult, Q2R_one_plus_eps, Rabs_mult.
    pose proof (Rabs_pos ra) as Hpa. pose proof (Rabs_pos rb) as Hpb.
    pose proof Q2R_eps_nonneg as He. pose proof Q2R_tiny_nonneg as Ht.
    assert (Hm : (Rabs ra * Rabs rb <= Q2R qa * Q2R qb)%R)
      by (apply Rmult_le_compat; assumption).
    assert (Hp : (0 <= Q2R qa * Q2R qb)%R)
      by (apply Rmult_le_pos; lra).
    pose proof (Rmult_le_pos _ _ Hp He). lra.
  - intros a qa (ra & -> & Ha) _.
    exists (Rtrigo_def.exp ra). split; [reflexivity |].
    rewrite Rabs_pos_eq by apply Rlt_le, exp_pos.
    rewrite Q2R_mult, Q2R_inject_Z.
    assert (H2 : Q2R 2 = 2%R) by (unfold Q2R; simpl; lra). rewrite H2.
    assert (Hq : (Q2R qa <= IZR (Qceiling qa))%R).
    { rewrite <- Q2R_inject_Z. apply Qle_Rle, Qle_ceiling. }
    assert (Hra : (ra <= IZR (Qceiling qa))%R).
    { eapply Rle_trans; [apply Rle_abs |]. lra. }
    assert (Hz : (0 <= Qceiling qa)%Z).
    { apply le_IZR. pose proof (Rabs_pos ra). lra. }
    pose proof (exp_mono _ _ Hra) as H1.
    pose proof (exp_le_pow3 _ Hz) as H3.
    pose proof (exp_pos ra). lra.
  - intros st. simpl. eexists. split; [reflexivity |].
    assert (H13 : Q2R 13 = 13%R) by (unfold Q2R; simpl; lra). rewrite H13.
    apply replay_draw_bounded.
Qed.

